(** * agent-forge: the generation pipelines of [multi_agent_generator.py]
    and [multi_agent_generator_staged.py]

  A shallow embedding of the two generator classes of the repository:

  - [MultiAgentGenerator] (module [Generator]): one request, the parser of
    fenced blocks, the iteration merge, the file writer with [chmod];
  - [ImprovedMultiAgentGenerator] (module [Staged]): manifest, grouping,
    chunked batch generation, gap filling, file writer.

  Conventions of the model:

  - Python text is a [string]; its characters are the code points below
    256.
  - A Python [dict] is an association list in insertion order with at
    most one binding per key.
  - The completion service is any function from the number of a request
    to a reply, so a session is a function of the replies. Of a prompt
    the model keeps what it asks for: the paths of a batch, the path and
    the listed context of a single file. The specification text, the
    same in every prompt of a session, is not kept.
  - [json.loads] is a parameter of the staged generator; module [Json]
    holds a decoder for the examples.
  - The instance state ([total_tokens]), the number of requests made, the
    destination directory, the final report and the prompts sent are
    threaded through a state-and-error monad. The monetary cost is a
    floating point total that no control flow reads; it is not part of
    the state.
  - Paths are the paths of [pathlib] on a POSIX system, and the file
    system fails as the paths make it fail: a regular file where a
    directory is needed, a directory where a file is to be written, a
    NUL character. Permissions, links and a full disk are not
    modelled. Where the model does not follow the code (a path that
    leaves the working directory, a name beyond the limits of the file
    system, a dictionary key that is no text) a computation ends in the
    outcome [Unmodelled] (in [Effect.Outside]) and nothing is said
    about it. *)

From Stdlib Require Import String Ascii List ZArith Lia Bool Arith.
Import ListNotations.

Open Scope string_scope.

(* ================================================================== *)
(** ** Python [str] operations used by the generators *)
(* ================================================================== *)

Module PyStr.

(** [str.isspace] on one character, for code points below 256:
    TAB..CR, FS..US, SPACE, NEL and NBSP. The regular expression class
    [\s] of a [str] pattern is the same predicate. *)
Definition isspace (c : ascii) : bool :=
  let n := nat_of_ascii c in
  (((9 <=? n) && (n <=? 13)) || ((28 <=? n) && (n <=? 32))
   || (n =? 133) || (n =? 160))%nat.

(** [s.startswith(p)] *)
Fixpoint startswith (p s : string) : bool :=
  match p, s with
  | EmptyString, _ => true
  | String _ _, EmptyString => false
  | String a p', String b s' => Ascii.eqb a b && startswith p' s'
  end.

Fixpoint lstrip (s : string) : string :=
  match s with
  | EmptyString => EmptyString
  | String c s' => if isspace c then lstrip s' else s
  end.

Fixpoint rstrip (s : string) : string :=
  match s with
  | EmptyString => EmptyString
  | String c s' =>
      match rstrip s' with
      | EmptyString => if isspace c then EmptyString else String c EmptyString
      | r => String c r
      end
  end.

(** [s.strip()] *)
Definition strip (s : string) : string := rstrip (lstrip s).


(** [needle in s] *)
Fixpoint contains (needle s : string) : bool :=
  startswith needle s ||
  match s with
  | EmptyString => false
  | String _ s' => contains needle s'
  end.

(** [s.find(needle)]; [None] stands for -1. *)
Fixpoint find (needle s : string) : option nat :=
  if startswith needle s then Some 0
  else match s with
       | EmptyString => None
       | String _ s' => option_map S (find needle s')
       end.

(** [s.rfind(needle)]; [None] stands for -1. *)
Fixpoint rfind (needle s : string) : option nat :=
  match s with
  | EmptyString => if startswith needle s then Some 0 else None
  | String _ s' =>
      match rfind needle s' with
      | Some i => Some (S i)
      | None => if startswith needle s then Some 0 else None
      end
  end.

(** [s[n:]] *)
Fixpoint drop (n : nat) (s : string) : string :=
  match n, s with
  | O, _ => s
  | S _, EmptyString => EmptyString
  | S n', String _ s' => drop n' s'
  end.

(** [s[a:b]] for non-negative [a] and [b]. *)
Definition slice (a b : nat) (s : string) : string := substring a (b - a) s.

(** [s.replace(old, new)] for a non-empty [old]: occurrences are replaced
    from the left and do not overlap. [skip] counts the characters of the
    occurrence being replaced that are still to be dropped. *)
Fixpoint replace_from (skip : nat) (old new s : string) : string :=
  match s with
  | EmptyString => EmptyString
  | String c s' =>
      match skip with
      | S k => replace_from k old new s'
      | O => if startswith old s
             then new ++ replace_from (String.length old - 1) old new s'
             else String c (replace_from 0 old new s')
      end
  end.

Definition replace (old new s : string) : string := replace_from 0 old new s.

(** [str.lower] on one character: A..Z and the Latin-1 capitals
    (U+00C0..U+00DE except the multiplication sign U+00D7). *)
Definition lower_char (c : ascii) : ascii :=
  let n := nat_of_ascii c in
  if (((65 <=? n) && (n <=? 90))
      || ((192 <=? n) && (n <=? 222) && negb (n =? 215)))%nat
  then ascii_of_nat (n + 32) else c.

Fixpoint lower (s : string) : string :=
  match s with
  | EmptyString => EmptyString
  | String c s' => String (lower_char c) (lower s')
  end.

(** [s.endswith(suf)] *)
Definition endswith (suf s : string) : bool :=
  (String.length suf <=? String.length s)%nat
  && (substring (String.length s - String.length suf) (String.length suf) s
      =? suf).

(** [s.split(sep)] for a one-character separator: never the empty list. *)
Fixpoint split (sep : ascii) (s : string) : list string :=
  match s with
  | EmptyString => [EmptyString]
  | String c s' =>
      if Ascii.eqb c sep then EmptyString :: split sep s'
      else match split sep s' with
           | h :: t => String c h :: t
           | [] => [String c EmptyString]
           end
  end.

(** [sep.join(parts)] *)
Fixpoint join (sep : string) (parts : list string) : string :=
  match parts with
  | [] => EmptyString
  | [p] => p
  | p :: rest => p ++ sep ++ join sep rest
  end.

(** [bool(s)]: a string is true when it is not empty. *)
Definition truthy (s : string) : bool :=
  match s with EmptyString => false | _ => true end.

(** [sorted(xs)] for a list of strings: the order of the code points. *)
Fixpoint insert (x : string) (xs : list string) : list string :=
  match xs with
  | [] => [x]
  | y :: ys => if String.leb x y then x :: xs else y :: insert x ys
  end.

Definition sorted (xs : list string) : list string :=
  fold_right insert [] xs.

(** [x in xs] for a list of strings *)
Definition mem (x : string) (xs : list string) : bool :=
  existsb (String.eqb x) xs.

End PyStr.

(* ================================================================== *)
(** ** Python [dict] with [str] keys *)
(* ================================================================== *)

Module PyDict.

Section Dict.
Context {V : Type}.

Definition dict := list (string * V).

Fixpoint get (d : dict) (k : string) : option V :=
  match d with
  | [] => None
  | (k', v) :: d' => if k' =? k then Some v else get d' k
  end.

(** [d[k] = v]: a bound key keeps its place, a new key goes last. *)
Fixpoint set (d : dict) (k : string) (v : V) : dict :=
  match d with
  | [] => [(k, v)]
  | (k', v') :: d' =>
      if k' =? k then (k', v) :: d' else (k', v') :: set d' k v
  end.

(** [k in d] *)
Definition contains (d : dict) (k : string) : bool :=
  match get d k with Some _ => true | None => false end.

(** [list(d.keys())] *)
Definition keys (d : dict) : list string := map fst d.

(** [d.update(other)] for a [dict] argument *)
Definition update (d other : dict) : dict :=
  fold_left (fun acc kv => set acc (fst kv) (snd kv)) other d.

End Dict.

Arguments dict V : clear implicits.

End PyDict.

(* ================================================================== *)
(** ** [ImprovedMultiAgentGenerator._group_files] *)
(* ================================================================== *)

Module Grouping.

Import PyDict.

(** The dictionary the function starts from: five empty groups. *)
Definition groups0 : dict (list string) :=
  [ ("infrastructure", []); ("publishers", []); ("consumers", []);
    ("monitor", []); ("config", []) ].

(** [groups[name].append(filepath)] *)
Definition append_to (groups : dict (list string)) (name filepath : string)
  : dict (list string) :=
  match get groups name with
  | Some members => set groups name (members ++ [filepath])%list
  | None => groups
  end.

(** The [if]/[elif] chain of the loop body: the name of the group a path
    goes to. *)
Definition group_of (filepath : string) : string :=
  if PyStr.contains "docker-compose" filepath then "infrastructure"
  else if PyStr.contains "publisher" filepath then "publishers"
  else if PyStr.contains "consumer" filepath then "consumers"
  else if PyStr.contains "monitor" filepath then "monitor"
  else "config".

Definition _group_files (manifest : list string) : dict (list string) :=
  let groups :=
    fold_left (fun g filepath => append_to g (group_of filepath) filepath)
              manifest groups0 in
  filter (fun kv => match snd kv with [] => false | _ => true end) groups.

End Grouping.

(* ================================================================== *)
(** ** JSON documents and [json.loads] *)
(* ================================================================== *)

Module Json.

(** The decoder of Python's [json] module with its default settings, on
    texts over the characters of this development. The limit Python puts
    on the depth of nesting is not modelled. *)

(** The values [json.loads] builds. A number keeps its lexeme ([int] or
    [float], also [NaN], [Infinity] and [-Infinity]): the generators never
    compute with one. The members of an object are the bindings of the
    [dict] that was built, in insertion order. *)
#[local] Unset Elimination Schemes.
Inductive json : Type :=
| JNull
| JBool (b : bool)
| JNumber (lexeme : string)
| JString (s : string)
| JArray (items : list json)
| JObject (members : list (string * json)).
#[local] Set Elimination Schemes.

(** The double quote, character 34. *)
Definition dquote : ascii := ascii_of_nat 34.

(** The decoder's white space: space, TAB, LF, CR. *)
Definition is_ws (c : ascii) : bool :=
  let n := nat_of_ascii c in
  ((n =? 32) || (n =? 9) || (n =? 10) || (n =? 13))%nat.

Fixpoint skip_ws (s : string) : string :=
  match s with
  | String c s' => if is_ws c then skip_ws s' else s
  | EmptyString => s
  end.

Definition is_digit (c : ascii) : bool :=
  let n := nat_of_ascii c in ((48 <=? n) && (n <=? 57))%nat.

Definition hex_value (c : ascii) : option nat :=
  let n := nat_of_ascii c in
  if ((48 <=? n) && (n <=? 57))%nat then Some (n - 48)
  else if ((65 <=? n) && (n <=? 70))%nat then Some (n - 55)
  else if ((97 <=? n) && (n <=? 102))%nat then Some (n - 87)
  else None.

(** The four hexadecimal digits of a [\u] escape. *)
Definition hex4 (s : string) : option (nat * string) :=
  match s with
  | String a (String b (String c (String d rest))) =>
      match hex_value a, hex_value b, hex_value c, hex_value d with
      | Some x, Some y, Some z, Some w =>
          Some (((x * 16 + y) * 16 + z) * 16 + w, rest)
      | _, _, _, _ => None
      end
  | _ => None
  end.

(** The text of a string literal after its opening quote, up to and
    without the closing quote (strict mode: a control character is an
    error). A [\u] escape of a code point above 255 names a character
    outside the alphabet of this development; it is answered by [None]. *)
Fixpoint scan_string (s : string) : option (string * string) :=
  match s with
  | EmptyString => None
  | String c s' =>
      if Ascii.eqb c dquote then Some (EmptyString, s')
      else if (nat_of_ascii c <? 32)%nat then None
      else if Ascii.eqb c "\"%char then
        match s' with
        | String e s'' =>
            let simple (ch : ascii) :=
              match scan_string s'' with
              | Some (body, rest) => Some (String ch body, rest)
              | None => None
              end in
            if Ascii.eqb e dquote then simple dquote
            else if Ascii.eqb e "\"%char then simple "\"%char
            else if Ascii.eqb e "/"%char then simple "/"%char
            else if Ascii.eqb e "b"%char then simple (ascii_of_nat 8)
            else if Ascii.eqb e "f"%char then simple (ascii_of_nat 12)
            else if Ascii.eqb e "n"%char then simple (ascii_of_nat 10)
            else if Ascii.eqb e "r"%char then simple (ascii_of_nat 13)
            else if Ascii.eqb e "t"%char then simple (ascii_of_nat 9)
            else if Ascii.eqb e "u"%char then
              match s'' with
              | String a (String b (String c' (String d s3))) =>
                  match hex4 s'' with
                  | Some (n, _) =>
                      if (n <? 256)%nat then
                        match scan_string s3 with
                        | Some (body, rest) =>
                            Some (String (ascii_of_nat n) body, rest)
                        | None => None
                        end
                      else None
                  | None => None
                  end
              | _ => None
              end
            else None
        | EmptyString => None
        end
      else
        match scan_string s' with
        | Some (body, rest) => Some (String c body, rest)
        | None => None
        end
  end.

(** The longest run of decimal digits at the head of [s]. *)
Fixpoint span_digits (s : string) : string * string :=
  match s with
  | String c s' =>
      if is_digit c then let (d, r) := span_digits s' in (String c d, r)
      else (EmptyString, s)
  | EmptyString => (EmptyString, s)
  end.

(** The decoder's number pattern at the head of [s]: an optional minus
    sign, then 0 or a digit run that does not start with 0, then an
    optional fraction (a dot and one or more digits), then an optional
    exponent (e or E, an optional sign, one or more digits). The result is
    the lexeme and the rest. *)
Definition scan_number (s : string) : option (string * string) :=
  let (sign, s1) :=
    match s with
    | String "-"%char r => ("-", r)
    | _ => (EmptyString, s)
    end in
  let int_part :=
    match s1 with
    | String "0"%char r => Some ("0", r)
    | String c _ =>
        if is_digit c then Some (span_digits s1) else None
    | EmptyString => None
    end in
  match int_part with
  | None => None
  | Some (ip, s2) =>
      let (frac, s3) :=
        match s2 with
        | String "."%char r =>
            match span_digits r with
            | (EmptyString, _) => (EmptyString, s2)
            | (d, r') => (String "." d, r')
            end
        | _ => (EmptyString, s2)
        end in
      let (ex, s4) :=
        match s3 with
        | String e r =>
            if Ascii.eqb e "e"%char || Ascii.eqb e "E"%char then
              let (sg, r1) :=
                match r with
                | String "+"%char r' => ("+", r')
                | String "-"%char r' => ("-", r')
                | _ => (EmptyString, r)
                end in
              match span_digits r1 with
              | (EmptyString, _) => (EmptyString, s3)
              | (d, r') => (String e (sg ++ d), r')
              end
            else (EmptyString, s3)
        | EmptyString => (EmptyString, s3)
        end in
      Some (sign ++ ip ++ frac ++ ex, s4)
  end.

(** The pairs of an object become a [dict]: a repeated name keeps its
    first place and takes the last value. *)
Definition object_of_pairs (pairs : list (string * json))
  : list (string * json) :=
  fold_left (fun d kv => PyDict.set d (fst kv) (snd kv)) pairs [].

(** [scan_once] with its two loops, [JSONObject] and [JSONArray]. The
    recursion is on [fuel]; every call that spends fuel without reading a
    character is followed by one that reads, so twice the length of the
    text is enough for any document. *)
Fixpoint scan_once (fuel : nat) (s : string) : option (json * string) :=
  match fuel with
  | O => None
  | S fuel' =>
      match s with
      | EmptyString => None
      | String c s' =>
          if Ascii.eqb c dquote then
            match scan_string s' with
            | Some (str, rest) => Some (JString str, rest)
            | None => None
            end
          else if Ascii.eqb c "{"%char then
            match skip_ws s' with
            | String "}"%char rest => Some (JObject [], rest)
            | s1 =>
                match scan_members fuel' s1 with
                | Some (pairs, rest) =>
                    Some (JObject (object_of_pairs pairs), rest)
                | None => None
                end
            end
          else if Ascii.eqb c "["%char then
            match skip_ws s' with
            | String "]"%char rest => Some (JArray [], rest)
            | s1 =>
                match scan_items fuel' s1 with
                | Some (items, rest) => Some (JArray items, rest)
                | None => None
                end
            end
          else if PyStr.startswith "null" s then Some (JNull, PyStr.drop 4 s)
          else if PyStr.startswith "true" s then Some (JBool true, PyStr.drop 4 s)
          else if PyStr.startswith "false" s then Some (JBool false, PyStr.drop 5 s)
          else match scan_number s with
               | Some (lexeme, rest) => Some (JNumber lexeme, rest)
               | None =>
                   if PyStr.startswith "NaN" s then Some (JNumber "NaN", PyStr.drop 3 s)
                   else if PyStr.startswith "Infinity" s
                   then Some (JNumber "Infinity", PyStr.drop 8 s)
                   else if PyStr.startswith "-Infinity" s
                   then Some (JNumber "-Infinity", PyStr.drop 9 s)
                   else None
               end
      end
  end

(** The members of a non-empty object, from the quote of a name on. *)
with scan_members (fuel : nat) (s : string)
  : option (list (string * json) * string) :=
  match fuel with
  | O => None
  | S fuel' =>
      match s with
      | String "034"%char s' =>
          match scan_string s' with
          | Some (key, r1) =>
              match skip_ws r1 with
              | String ":"%char r2 =>
                  match scan_once fuel' (skip_ws r2) with
                  | Some (v, r3) =>
                      match skip_ws r3 with
                      | String "}"%char rest => Some ([(key, v)], rest)
                      | String ","%char r4 =>
                          match scan_members fuel' (skip_ws r4) with
                          | Some (more, rest) => Some ((key, v) :: more, rest)
                          | None => None
                          end
                      | _ => None
                      end
                  | None => None
                  end
              | _ => None
              end
          | None => None
          end
      | _ => None
      end
  end

(** The items of a non-empty array. *)
with scan_items (fuel : nat) (s : string) : option (list json * string) :=
  match fuel with
  | O => None
  | S fuel' =>
      match scan_once fuel' s with
      | Some (v, r1) =>
          match skip_ws r1 with
          | String "]"%char rest => Some ([v], rest)
          | String ","%char r2 =>
              match scan_items fuel' (skip_ws r2) with
              | Some (more, rest) => Some (v :: more, rest)
              | None => None
              end
          | _ => None
          end
      | None => None
      end
  end.

(** [json.loads(text)]: [None] stands for [JSONDecodeError]. White space
    may surround the document; anything else after it is an error. *)
Definition json_loads (text : string) : option json :=
  match scan_once (2 * String.length text + 2) (skip_ws text) with
  | Some (v, rest) =>
      match skip_ws rest with
      | EmptyString => Some v
      | _ => None
      end
  | None => None
  end.

End Json.

(* ================================================================== *)
(** ** How an operation that can raise ends *)
(* ================================================================== *)

Module Effect.

(** The operation succeeds with a value, it raises an exception, or it
    is one the model does not follow. *)
Inductive result (A : Type) : Type :=
| Done (a : A)
| Failed
| Outside.

Arguments Done {A} a.
Arguments Failed {A}.
Arguments Outside {A}.

Definition and_then {A B} (r : result A) (k : A -> result B) : result B :=
  match r with
  | Done a => k a
  | Failed => Failed
  | Outside => Outside
  end.

End Effect.

(* ================================================================== *)
(** ** Paths and the destination directory *)
(* ================================================================== *)

Module Disk.

Import PyDict Effect.

(** *** [pathlib.PurePosixPath] *)

Definition slash : ascii := "/"%char.

(** A parsed path: the root ([/], [//] or none) and the names. *)
Record path : Type := mkpath { root : string; parts : list string }.

(** The root of a text: two leading slashes are kept, three or more are
    one. *)
Definition root_of (s : string) : string :=
  if PyStr.startswith "//" s && negb (PyStr.startswith "///" s) then "//"
  else if PyStr.startswith "/" s then "/"
  else EmptyString.

(** The names of a text: the pieces between slashes, without the empty
    ones and the ones that are [.]; a name [..] is kept. *)
Definition names (s : string) : list string :=
  filter (fun n => negb (n =? EmptyString) && negb (n =? "."))
         (PyStr.split slash s).

(** [Path(s)] *)
Definition parse (s : string) : path := mkpath (root_of s) (names s).

(** [p / s]: a text with a root replaces the path. *)
Definition joinpath (p : path) (s : string) : path :=
  if root_of s =? EmptyString then mkpath (root p) (parts p ++ names s)
  else parse s.

(** [p.parent] *)
Definition parent (p : path) : path :=
  mkpath (root p) (removelast (parts p)).

(** The names of a path joined by slashes. *)
Definition joined_names (ns : list string) : string := PyStr.join "/" ns.

(** [str(p)] *)
Definition str (p : path) : string :=
  match root p, parts p with
  | EmptyString, [] => "."
  | r, ns => r ++ joined_names ns
  end.

(** [str(Path(output_dir) / filepath)] *)
Definition path_join (output_dir filepath : string) : string :=
  str (joinpath (parse output_dir) filepath).

(** *** The paths the model follows *)

Fixpoint has_nul (s : string) : bool :=
  match s with
  | EmptyString => false
  | String c s' => Ascii.eqb c Ascii.zero || has_nul s'
  end.

(** The length of a text in the bytes of UTF-8: one byte for a code
    point below 128, two for the others below 256. *)
Fixpoint utf8_length (s : string) : Z :=
  match s with
  | EmptyString => 0
  | String c s' =>
      ((if (nat_of_ascii c <? 128)%nat then 1 else 2) + utf8_length s')%Z
  end.

(** A path the model follows: it is relative and has no name [..], so
    it stays below the working directory; no name is longer than 255
    bytes and the whole path is shorter than 4096 bytes, so the file
    system does not refuse it for its length. *)
Definition covered (p : path) : bool :=
  (root p =? EmptyString)
  && forallb (fun n => negb (n =? "..") && (utf8_length n <=? 255)%Z)
             (parts p)
  && (utf8_length (str p) <=? 4095)%Z.

(** *** Files and directories *)

(** A regular file: its text and its permission bits. *)
Record file : Type := mkfile { content : string; mode : Z }.

(** The regular files below the working directory, by the text of their
    path: names joined by single slashes, none of them empty, [.] or
    [..]. The directories are the working directory and the paths above
    an entry. An entry whose key ends in a slash stands for a directory
    that is there before the session and may be empty; the directories
    a writer makes are not recorded, only the files it writes. Two keys
    are two files: there are no links, and the file system tells
    capitals from small letters. *)
Definition disk := dict file.

(** The bits a new file gets from [open(..., 'w')]: 0o666 without the
    bits of the process's umask. *)
Definition creation_mode (umask : Z) : Z := Z.land 438 (Z.lnot umask).

(** The text of a file is replaced; a file that exists keeps its
    bits. *)
Definition write_text (umask : Z) (d : disk) (path text : string) : disk :=
  match get d path with
  | Some f => set d path (mkfile text (mode f))
  | None => set d path (mkfile text (creation_mode umask))
  end.

(** [os.chmod(path, bits)] *)
Definition chmod (d : disk) (path : string) (bits : Z) : disk :=
  match get d path with
  | Some f => set d path (mkfile (content f) bits)
  | None => d
  end.

(** Some execute bit (0o111) is set. *)
Definition executable (f : file) : bool :=
  negb (Z.land (mode f) 73 =? 0)%Z.

(** The initial segments of a list of names that are not empty. *)
Fixpoint prefixes (ns : list string) : list (list string) :=
  match ns with
  | [] => []
  | n :: ns' => [n] :: map (cons n) (prefixes ns')
  end.

(** The names are those of a directory: the working directory, or a
    path above some file. *)
Definition is_dir (d : disk) (ns : list string) : bool :=
  match ns with
  | [] => true
  | _ => existsb (fun kv => PyStr.startswith (joined_names ns ++ "/")
                                              (fst kv)) d
  end.

(** [path.mkdir(parents=True, exist_ok=True)] succeeds unless the path
    or a path above it is a regular file ([FileExistsError],
    [NotADirectoryError]). A directory it makes holds no file yet and
    is not recorded. *)
Definition mkdir (d : disk) (ns : list string) : bool :=
  forallb (fun p => negb (contains d (joined_names p))) (prefixes ns).

(** [output_path.mkdir(parents=True, exist_ok=True)]; a text with a NUL
    character raises [ValueError]. *)
Definition make_output_dir (d : disk) (output_dir : string) : result unit :=
  if has_nul output_dir then Failed
  else if negb (covered (parse output_dir)) then Outside
  else if mkdir d (parts (parse output_dir)) then Done tt
  else Failed.

(** What both writers do for one artifact once the destination is
    made: [full_path = output_path / filepath], then
    [full_path.parent.mkdir(parents=True, exist_ok=True)], then the
    file is opened for writing and written. A path without a name of
    its own is the destination, a directory; so is a path above a file
    ([IsADirectoryError]). *)
Definition write_under (umask : Z) (output_dir : string) (d : disk)
           (filepath content : string) : result disk :=
  if has_nul filepath then Failed
  else
    let full_path := joinpath (parse output_dir) filepath in
    if negb (covered full_path) then Outside
    else
      match names filepath with
      | [] => Failed
      | _ =>
          if negb (mkdir d (parts (parent full_path))) then Failed
          else if is_dir d (parts full_path) then Failed
          else Done (write_text umask d (str full_path) content)
      end.

End Disk.

(* ================================================================== *)
(** ** [MultiAgentGenerator]: one request, fenced blocks *)
(* ================================================================== *)

Module Generator.

Import PyDict.

(** *** The pattern of [_parse_files_from_response]

    Three backquotes; optionally [filename:] and white space; group 1,
    one or more characters other than a newline; a newline; group 2, as
    few characters as possible (any character, [re.DOTALL]); three
    backquotes.  The functions below are the backtracking matcher for
    this one pattern, one function per piece. *)

Definition fence : string := "```".

Definition newline : ascii := ascii_of_nat 10.

(** Group 2 and the closing fence: the text up to the first fence, and
    what follows that fence. *)
Fixpoint split_fence (s : string) : option (string * string) :=
  if PyStr.startswith fence s then Some (EmptyString, PyStr.drop 3 s)
  else match s with
       | EmptyString => None
       | String c s' =>
           match split_fence s' with
           | Some (body, rest) => Some (String c body, rest)
           | None => None
           end
       end.

(** The longest run of characters other than a newline, and the rest. *)
Fixpoint span_line (s : string) : string * string :=
  match s with
  | EmptyString => (EmptyString, s)
  | String c s' =>
      if Ascii.eqb c newline then (EmptyString, s)
      else let (line, rest) := span_line s' in (String c line, rest)
  end.

(** Group 1, the newline, group 2 and the closing fence at the head of
    [s]. Group 1 is greedy; a shorter group 1 is followed by a character
    that is no newline, so only the whole run can match. The result is
    group 1, group 2 and the text after the match. *)
Definition match_groups (s : string) : option (string * string * string) :=
  match span_line s with
  | (EmptyString, _) => None
  | (_, EmptyString) => None
  | (line, String _ after_newline) =>
      match split_fence after_newline with
      | Some (body, rest) => Some (line, body, rest)
      | None => None
      end
  end.

(** The greedy white space of the optional group followed by the rest
    of the pattern: the longest run of white space is tried first, then
    each shorter one. *)
Fixpoint match_spaces (s : string) : option (string * string * string) :=
  match s with
  | String c s' =>
      if PyStr.isspace c then
        match match_spaces s' with
        | Some m => Some m
        | None => match_groups s
        end
      else match_groups s
  | EmptyString => match_groups s
  end.

(** The whole pattern at the head of [s]: with the optional group first,
    without it when that fails. *)
Definition match_at (s : string) : option (string * string * string) :=
  if PyStr.startswith fence s then
    let t := PyStr.drop 3 s in
    match (if PyStr.startswith "filename:" t then match_spaces (PyStr.drop 9 t)
           else None) with
    | Some m => Some m
    | None => match_groups t
    end
  else None.

(** [re.finditer]: the matches from left to right, each search starting
    where the last match ended. [skip] counts the characters of the last
    match that are still to be passed. *)
Fixpoint finditer_from (skip : nat) (s : string) : list (string * string) :=
  match s with
  | EmptyString => []
  | String _ s' =>
      match skip with
      | S k => finditer_from k s'
      | O =>
          match match_at s with
          | Some (label, body, rest) =>
              (label, body)
                :: finditer_from (String.length s - String.length rest - 1) s'
          | None => finditer_from 0 s'
          end
      end
  end.

Definition finditer (content : string) : list (string * string) :=
  finditer_from 0 content.

(** The language identifiers the loop skips. *)
Definition language_tags : list string :=
  ["python"; "yaml"; "yml"; "bash"; "sh"; "dockerfile"; "json";
   "markdown"; "md"].

(** The body of the loop over the matches. *)
Definition parse_step (files : dict string) (m : string * string)
  : dict string :=
  let filepath := PyStr.strip (fst m) in
  let file_content := PyStr.strip (snd m) in
  if PyStr.mem (PyStr.lower filepath) language_tags then files
  else
    let filepath := PyStr.strip (PyStr.replace "filename:" EmptyString filepath) in
    set files filepath file_content.

Definition _parse_files_from_response (content : string) : dict string :=
  fold_left parse_step (finditer content) [].

(** *** [_write_files] (with [clean=False], its only use) *)

(** The body of the loop: the file is written, and made executable when
    the key ends in [.sh]. *)
Definition write_file (umask : Z) (output_dir : string) (d : Disk.disk)
           (kv : string * string) : Effect.result Disk.disk :=
  Effect.and_then
    (Disk.write_under umask output_dir d (fst kv) (snd kv))
    (fun d =>
       Effect.Done
         (if PyStr.endswith ".sh" (fst kv)
          then Disk.chmod d (Disk.path_join output_dir (fst kv)) 493
          else d)).

Fixpoint write_each (umask : Z) (output_dir : string)
         (files : dict string) (d : Disk.disk) : Effect.result Disk.disk :=
  match files with
  | [] => Effect.Done d
  | kv :: files' =>
      Effect.and_then (write_file umask output_dir d kv)
                      (write_each umask output_dir files')
  end.

Definition _write_files (umask : Z) (files : dict string)
           (output_dir : string) (d : Disk.disk)
  : Effect.result Disk.disk :=
  Effect.and_then (Disk.make_output_dir d output_dir)
                  (fun _ => write_each umask output_dir files d).

(** *** [generate_system]: the reply to the one request is [reply];
    launching the generated system ([auto_execute]) is outside the
    model. The result is the returned dictionary and the disk. *)
Definition generate_system (umask : Z) (reply : string)
           (output_dir : string) (d : Disk.disk)
  : Effect.result (dict string * Disk.disk) :=
  let files := _parse_files_from_response reply in
  match files with
  | [] => Effect.Done ([], d)
  | _ =>
      Effect.and_then (_write_files umask files output_dir d)
                      (fun d => Effect.Done (files, d))
  end.

(** *** [iterate_on_system]: the reply to the one request is [reply].
    The caller's dictionary is updated in place before anything is
    written: the first component is that dictionary after the call,
    also when the writer raises; the second is how the writing of the
    files of the reply ends. *)
Definition iterate_on_system (umask : Z) (reply : string)
           (existing_files : dict string) (output_dir : string)
           (d : Disk.disk) : dict string * Effect.result Disk.disk :=
  let updated_files := _parse_files_from_response reply in
  let existing_files :=
    fold_left (fun acc kv => set acc (fst kv) (snd kv))
              updated_files existing_files in
  (existing_files, _write_files umask updated_files output_dir d).

End Generator.

(* ================================================================== *)
(** ** [ImprovedMultiAgentGenerator]: manifest, batches, gap filling *)
(* ================================================================== *)

Module Staged.

Import PyDict Json.

(** What one request to the completion service answers:
    [response.content[0].text] and [response.usage]. *)
Record response : Type :=
  mkresponse { text : string; input_tokens : Z; output_tokens : Z }.

(** What a prompt asks for. The prompt of [_generate_manifest] asks for
    the list of files; the prompt of [_generate_file_group] names the
    paths of [file_list]; the prompt of [_generate_single_file] names
    [filepath] and lists up to ten of the existing paths. *)
Inductive prompt : Type :=
| ManifestPrompt
| GroupPrompt (file_list : list string)
| FilePrompt (filepath : string) (context : list string).

(** What the generator prints at the end of a session: the line
    [Files generated: n/m] and, when it is printed, the list under
    [WARNING: Some files were not generated]. The progress lines are not
    modelled. *)
Inductive event : Type :=
| Summary (generated requested : nat)
| Warning (paths : list string).

(** The state a session threads: the number of requests made so far, the
    instance attribute [total_tokens], the destination directory, the
    report printed so far and the prompts sent so far, in order. *)
Record state : Type :=
  mkstate { calls : nat; total_tokens : Z; disk : Disk.disk;
            stdout : list event; prompts : list prompt }.

(** How a computation ends: with a value and a state, by [sys.exit], by
    an exception nobody catches, or (in the model only) with the
    recursion bound of [_generate_file_group_rec] used up, or at a step
    the model does not follow. *)
Inductive outcome (A : Type) : Type :=
| Returned (a : A) (st : state)
| Exited (status : Z)
| Raised
| OutOfFuel
| Unmodelled.

Arguments Returned {A} a st.
Arguments Exited {A} status.
Arguments Raised {A}.
Arguments OutOfFuel {A}.
Arguments Unmodelled {A}.

Definition M (A : Type) : Type := state -> outcome A.

Definition ret {A} (a : A) : M A := fun st => Returned a st.

Definition bind {A B} (m : M A) (k : A -> M B) : M B :=
  fun st =>
    match m st with
    | Returned a st' => k a st'
    | Exited c => Exited c
    | Raised => Raised
    | OutOfFuel => OutOfFuel
    | Unmodelled => Unmodelled
    end.

Definition raise {A} : M A := fun _ => Raised.

Definition sys_exit {A} (status : Z) : M A := fun _ => Exited status.

(** An operation that raises when it has no result. *)
Definition try_or_raise {A} (o : option A) : M A :=
  match o with Some a => ret a | None => raise end.

(** An operation that can raise, or be one the model does not follow. *)
Definition attempt {A} (r : Effect.result A) : M A :=
  match r with
  | Effect.Done a => ret a
  | Effect.Failed => raise
  | Effect.Outside => fun _ => Unmodelled
  end.

Notation "x <- m ;; k" := (bind m (fun x => k))
  (at level 61, m at next level, right associativity).
Notation "m ;;; k" := (bind m (fun _ => k))
  (at level 61, right associativity).

(** A [for] loop whose body updates an accumulator. *)
Fixpoint for_each {A X} (xs : list X) (body : A -> X -> M A) (acc : A)
  : M A :=
  match xs with
  | [] => ret acc
  | x :: xs' => acc' <- body acc x ;; for_each xs' body acc'
  end.

(** *** What Python does with a decoded value of another type

    [json.loads] may answer a value of any JSON type where the code
    expects a list of paths or a dictionary. The functions of this part
    follow CPython on such values, with one shortcut. CPython accepts a
    manifest entry that is a list or a dictionary and goes on; a session
    that holds one cannot return, because [_generate_file_group] joins
    the paths of every group into a prompt and raises [TypeError] for a
    value that is no string. The model raises where the value comes in.
    [Raised] does not say which exception ended the session, nor what was
    done before it. A dictionary of the model has text keys only: where
    [dict.update] binds a key that is a number, a truth value or [None],
    the model does not follow. *)

(** The characters of a string, one string each. *)
Fixpoint chars (s : string) : list string :=
  match s with
  | EmptyString => []
  | String c s' => String c EmptyString :: chars s'
  end.

Definition as_string (j : json) : option string :=
  match j with JString s => Some s | _ => None end.

Fixpoint all_strings (items : list json) : option (list string) :=
  match items with
  | [] => Some []
  | j :: rest =>
      match as_string j, all_strings rest with
      | Some s, Some ss => Some (s :: ss)
      | _, _ => None
      end
  end.

(** The paths [len(manifest)] counts and [for filepath in manifest]
    visits: the items of a list, the characters of a string, the keys of
    a dictionary; a number, a truth value or [None] has no [len]. A list
    item that is no string raises in [_group_files] (a scalar) or in the
    [join] of [_generate_file_group] (a list or a dictionary). *)
Definition manifest_paths (manifest : json) : option (list string) :=
  match manifest with
  | JArray items => all_strings items
  | JString s => Some (chars s)
  | JObject members => Some (keys members)
  | _ => None
  end.

(** One item of the sequence [dict.update] is given, as a key and a
    value: the item is itself iterated and must have length 2
    ([TypeError], [ValueError]). A key that is a list or a dictionary
    cannot be hashed ([TypeError]); a key that is a number, a truth
    value or [None] is bound by CPython and not followed here. *)
Definition update_pair (item : json) : Effect.result (string * json) :=
  let elements :=
    match item with
    | JArray l => Some l
    | JString s => Some (map JString (chars s))
    | JObject members => Some (map JString (keys members))
    | _ => None
    end in
  match elements with
  | Some [JString k; v] => Effect.Done (k, v)
  | Some [JArray _; _] => Effect.Failed
  | Some [JObject _; _] => Effect.Failed
  | Some [_; _] => Effect.Outside
  | _ => Effect.Failed
  end.

(** The items are taken in order: the first that raises or is not
    followed ends the update. *)
Fixpoint update_pairs (items : list json)
  : Effect.result (list (string * json)) :=
  match items with
  | [] => Effect.Done []
  | j :: rest =>
      Effect.and_then (update_pair j)
        (fun kv =>
           Effect.and_then (update_pairs rest)
             (fun kvs => Effect.Done (kv :: kvs)))
  end.

(** The bindings [d.update(other)] makes: the members of a dictionary;
    the pairs of a list; nothing for the empty string. A string that is
    not empty (its first item has length 1), a number, a truth value
    and [None] raise. *)
Definition update_bindings (other : json)
  : Effect.result (list (string * json)) :=
  match other with
  | JObject members => Effect.Done members
  | JArray items => update_pairs items
  | JString EmptyString => Effect.Done []
  | _ => Effect.Failed
  end.

(** [d.update(other)] *)
Definition dict_update (d : dict json) (other : json) : M (dict json) :=
  bindings <- attempt (update_bindings other) ;;
  ret (update d bindings).

Section Session.

(** The completion service: the answer to the [n]-th request of the
    session. *)
Variable service : nat -> response.

(** [json.loads]; [None] stands for the exception it raises. *)
Variable json_loads : string -> option json.

Variable umask : Z.

(** [_call_claude]: the prompt goes to the service, which is free to
    answer anything; the token counts are added to the instance. *)
Definition _call_claude (prompt : prompt) : M response :=
  fun st =>
    let r := service (calls st) in
    Returned r (mkstate (S (calls st))
                        (total_tokens st + (input_tokens r + output_tokens r))
                        (disk st) (stdout st)
                        (prompts st ++ [prompt])%list).

(** [_generate_manifest] *)
Definition _generate_manifest : M json :=
  response <- _call_claude ManifestPrompt ;;
  let text := PyStr.strip (text response) in
  let text :=
    PyStr.strip
      (PyStr.replace "```" EmptyString
         (PyStr.replace "```json" EmptyString text)) in
  match json_loads text with
  | Some manifest => ret manifest
  | None => sys_exit 1
  end.

(** The text [_generate_file_group] gives to [json.loads]: the reply
    without the fences around it. *)
Definition unwrap_json (reply : string) : string :=
  let text := PyStr.strip reply in
  if PyStr.contains "```json" text then
    match PyStr.find "```json" text, PyStr.rfind "```" text with
    | Some start, Some json_end =>
        PyStr.strip (PyStr.slice (start + 7) json_end text)
    | _, _ => text
    end
  else if PyStr.contains "```" text then
    match PyStr.find "```" text, PyStr.rfind "```" text with
    | Some start, Some json_end =>
        PyStr.strip (PyStr.slice (start + 3) json_end text)
    | _, _ => text
    end
  else text.

(** The part of [_generate_file_group] for at most five paths: one
    request, whose prompt names the paths; a reply that does not decode
    gives the empty dictionary. *)
Definition generate_batch (file_list : list string) : M json :=
  response <- _call_claude (GroupPrompt file_list) ;;
  match json_loads (unwrap_json (text response)) with
  | Some files => ret files
  | None => ret (JObject [])
  end.

(** [range(0, n, 5)] *)
Fixpoint range5 (count start : nat) : list nat :=
  match count with
  | O => []
  | S count' => start :: range5 count' (start + 5)
  end.

Definition range_step5 (n : nat) : list nat := range5 ((n + 4) / 5) 0.

(** [file_list[i:i+5]] *)
Definition batch_at (file_list : list string) (i : nat) : list string :=
  firstn 5 (skipn i file_list).

(** [_generate_file_group]; [fuel] bounds the depth of the recursion. *)
Fixpoint _generate_file_group_rec (fuel : nat) (file_list : list string)
  : M json :=
  match fuel with
  | O => fun _ => OutOfFuel
  | S fuel' =>
      match file_list with
      | [] => ret (JObject [])
      | _ =>
          if (5 <? List.length file_list)%nat then
            results <-
              for_each (range_step5 (List.length file_list))
                (fun results i =>
                   generated <-
                     _generate_file_group_rec fuel' (batch_at file_list i) ;;
                   dict_update results generated)
                [] ;;
            ret (JObject results)
          else generate_batch file_list
      end
  end.

(** A batch of a longer list has at most five paths, so the recursion
    is never deeper than two calls. *)
Definition _generate_file_group (file_list : list string) : M json :=
  _generate_file_group_rec 2 file_list.

(** [_generate_single_file]: the reply without a fence line at either
    end. *)
Definition strip_fences (reply : string) : string :=
  let content := PyStr.strip reply in
  if PyStr.startswith "```" content then
    let lines := PyStr.split Generator.newline content in
    let lines :=
      match lines with
      | first :: others =>
          if PyStr.startswith "```" first then others else lines
      | [] => lines
      end in
    let lines :=
      match rev lines with
      | last :: before =>
          if PyStr.strip last =? "```" then rev before else lines
      | [] => lines
      end in
    PyStr.join (String Generator.newline EmptyString) lines
  else content.

(** The context of the prompt of [_generate_single_file]:
    [sorted(existing_files.keys())[:10]]. *)
Definition context_of (existing_files : dict json) : list string :=
  firstn 10 (PyStr.sorted (keys existing_files)).

Definition _generate_single_file (filepath : string)
           (existing_files : dict json) : M string :=
  response <- _call_claude (FilePrompt filepath (context_of existing_files)) ;;
  ret (strip_fences (text response)).

(** The state with another disk. *)
Definition with_disk (st : state) (d : Disk.disk) : state :=
  mkstate (calls st) (total_tokens st) d (stdout st) (prompts st).

(** The body of the loop of [_write_files]: the file is opened, which
    fails as the path makes it fail, and [f.write(content)] raises for
    a value that is no string. *)
Definition write_file (output_dir : string) (_ : unit)
           (kv : string * json) : M unit :=
  fun st =>
    match snd kv with
    | JString content =>
        match Disk.write_under umask output_dir (disk st) (fst kv) content with
        | Effect.Done d => Returned tt (with_disk st d)
        | Effect.Failed => Raised
        | Effect.Outside => Unmodelled
        end
    | _ => Raised
    end.

(** [_write_files]: the destination is made, then the files are
    written in the order of the dictionary. *)
Definition _write_files (files : dict json) (output_dir : string)
  : M unit :=
  (fun st => attempt (Disk.make_output_dir (disk st) output_dir) st) ;;;
  for_each files (write_file output_dir) tt.

Definition print (e : event) : M unit :=
  fun st =>
    Returned tt (mkstate (calls st) (total_tokens st) (disk st)
                         (stdout st ++ [e])%list (prompts st)).

(** [set(manifest) - set(files.keys())], in the order of the manifest
    (Python fixes no order for a set). *)
Definition missing_files (manifest : list string) (files : dict json)
  : list string :=
  nodup string_dec
        (filter (fun f => negb (contains files f)) manifest).

(** [generate_system] *)
Definition generate_system (spec output_dir : string) : M (dict json) :=
  (* Phase 1 *)
  manifest <- _generate_manifest ;;
  manifest <- try_or_raise (manifest_paths manifest) ;;
  (* Phase 2 *)
  let file_groups := Grouping._group_files manifest in
  files <-
    for_each file_groups
      (fun files group =>
         generated <- _generate_file_group (snd group) ;;
         dict_update files generated)
      [] ;;
  (* Phase 3 *)
  let missing := filter (fun f => negb (contains files f)) manifest in
  files <-
    for_each missing
      (fun files filepath =>
         content <- _generate_single_file filepath files ;;
         if PyStr.truthy content
         then ret (set files filepath (JString content))
         else ret files)
      files ;;
  _write_files files output_dir ;;;
  print (Summary (List.length files) (List.length manifest)) ;;;
  (if (List.length files <? List.length manifest)%nat
   then print (Warning (missing_files manifest files))
   else ret tt) ;;;
  ret files.

(** Batch generation as the documentation words it: the chunks are
    generated one after the other, each by a request of its own, and the
    results are merged by path into one dictionary, a later chunk
    replacing what an earlier one bound. *)
Definition generate_chunks (chunks : list (list string)) : M json :=
  results <-
    for_each chunks
      (fun results chunk =>
         generated <- generate_batch chunk ;;
         dict_update results generated)
      [] ;;
  ret (JObject results).

(** The bindings a batch reply makes when [files.update] takes it: none
    when the reply does not decode, or when the update does not go
    through. *)
Definition reply_bindings (r : response) : list (string * json) :=
  match json_loads (unwrap_json (text r)) with
  | Some generated =>
      match update_bindings generated with
      | Effect.Done bindings => bindings
      | _ => []
      end
  | None => []
  end.

(** The keys a batch reply binds. *)
Definition batch_keys (r : response) : list string :=
  map fst (reply_bindings r).

(** The paths a value binds when [files.update] takes it are keys of the
    reply to a request numbered from [lo] up to, not including, [hi]. *)
Definition bound_by_replies (lo hi : nat) (generated : json) : Prop :=
  forall bindings p,
    update_bindings generated = Effect.Done bindings ->
    In p (map fst bindings) ->
    exists n, lo <= n < hi /\ In p (batch_keys (service n)).

(** The same of the keys of a dictionary. *)
Definition keys_from_replies (lo hi : nat) (files : dict json) : Prop :=
  forall p, In p (keys files) ->
            exists n, lo <= n < hi /\ In p (batch_keys (service n)).

End Session.

(** The number of requests [_generate_file_group] makes for a list. *)
Definition requests_of (file_list : list string) : nat :=
  match file_list with
  | [] => 0
  | _ => if (5 <? List.length file_list)%nat
         then (List.length file_list + 4) / 5
         else 1
  end.


Definition state0 : state := mkstate 0 0 [] [] [].

End Staged.

(* ================================================================== *)
(** ** Shapes of replies and the sessions used as examples *)
(* ================================================================== *)

Module Doc.

Definition nl : string := String Generator.newline EmptyString.

Definition backquote : ascii := "`"%char.

(** No fence anywhere in the text. *)
Definition fence_free (s : string) : bool :=
  negb (PyStr.contains Generator.fence s).

Fixpoint ends_with_backquote (s : string) : bool :=
  match s with
  | EmptyString => false
  | String c EmptyString => Ascii.eqb c backquote
  | String _ s' => ends_with_backquote s'
  end.

(** Text that holds no fence and cannot lend backquotes to a fence that
    follows it: prose between two blocks, or the body of a block. *)
Definition clean (s : string) : bool :=
  fence_free s && negb (ends_with_backquote s).

(** No white space (so no newline either) in the text. *)
Fixpoint no_space (s : string) : bool :=
  match s with
  | EmptyString => true
  | String c s' => negb (PyStr.isspace c) && no_space s'
  end.

(** A path token: not empty, no white space. *)
Definition plain_label (s : string) : bool :=
  PyStr.truthy s && no_space s.

(** A block in the format the prompt asks for. *)
Definition block (path body : string) : string :=
  Generator.fence ++ "filename: " ++ path ++ nl ++ body ++ Generator.fence.

(** A block whose opening line is the label alone. *)
Definition bare_block (label body : string) : string :=
  Generator.fence ++ label ++ nl ++ body ++ Generator.fence.

(** The test of the parser's loop on group 1 of a match. *)
Definition is_language_tag (label : string) : bool :=
  PyStr.mem (PyStr.lower (PyStr.strip label)) Generator.language_tags.

(** The key the parser's loop binds for group 1 of a match. *)
Definition label_key (label : string) : string :=
  PyStr.strip (PyStr.replace "filename:" EmptyString (PyStr.strip label)).

(** A JSON string literal of a text without quotes or escapes. *)
Definition quoted (s : string) : string :=
  String Json.dquote (s ++ String Json.dquote EmptyString).

(** Two dictionaries with the same bindings (Python's [==] on [dict]). *)
Definition same_bindings {V} (d1 d2 : PyDict.dict V) : Prop :=
  forall k, PyDict.get d1 k = PyDict.get d2 k.

(** The value of the last pair for [k] in a list of bindings. *)
Fixpoint last_binding {V} (bindings : list (string * V)) (k : string)
  : option V :=
  match bindings with
  | [] => None
  | (k', v) :: rest =>
      match last_binding rest k with
      | Some v' => Some v'
      | None => if k' =? k then Some v else None
      end
  end.

End Doc.

Module Scenario.

Import Doc.

(** A service that answers the given texts in turn, then the empty
    text; each answer is charged 10 and 20 tokens. *)
Definition replies (texts : list string) (n : nat) : Staged.response :=
  Staged.mkresponse (nth n texts EmptyString) 10 20.

(** The manifest of the end-to-end example of the documentation. *)
Definition manifest3 : list string :=
  ["docker-compose.yml"; "agent1/Dockerfile"; "agent1/publish.py"].

(** The text [["a.py"]]. *)
Definition manifest_a : string := "[" ++ quoted "a.py" ++ "]".

(** The text [{"a.py": "x", "evil.py": "y"}]: the requested path and one
    nobody asked for. *)
Definition reply_with_extra : string :=
  "{" ++ quoted "a.py" ++ ": " ++ quoted "x" ++ ", "
      ++ quoted "evil.py" ++ ": " ++ quoted "y" ++ "}".

(** The text [{"b.py": "y"}]: only a path nobody asked for. *)
Definition reply_other : string :=
  "{" ++ quoted "b.py" ++ ": " ++ quoted "y" ++ "}".

(** A fence pair with nothing inside. *)
Definition empty_fence : string := "```" ++ nl ++ "```".

(** Twelve paths of one group. *)
Definition twelve : list string :=
  ["f01"; "f02"; "f03"; "f04"; "f05"; "f06"; "f07"; "f08"; "f09"; "f10";
   "f11"; "f12"].

(** Three batch answers: [{"f01": "a", "f06": "b"}], [{"f06": "c"}] and
    a text that is no JSON. *)
Definition twelve_replies : list string :=
  [ "{" ++ quoted "f01" ++ ": " ++ quoted "a" ++ ", "
        ++ quoted "f06" ++ ": " ++ quoted "b" ++ "}";
    "{" ++ quoted "f06" ++ ": " ++ quoted "c" ++ "}";
    "Sorry, I cannot do that." ].

(** A reply with the two blocks of the documentation's example. *)
Definition two_blocks : string :=
  "Here are the files:" ++ nl ++ block "a.py" ("print(1)" ++ nl) ++ nl
    ++ "and" ++ nl ++ block "b.py" (nl ++ "  x = 2  " ++ nl) ++ nl ++ "Done.".

(** A modification reply: [a.py] changed, [c.py] new. *)
Definition modification_reply : string :=
  block "a.py" ("v2" ++ nl) ++ nl ++ block "c.py" ("v3" ++ nl).

End Scenario.

(* ================================================================== *)
(** ** Definitions for the properties of the code beyond the specification *)
(* ================================================================== *)

Module Aux.

Import PyDict Json Staged.

(** The names of the five groups, in the order of the dictionary
    [_group_files] starts from. *)
Definition group_names : list string :=
  ["infrastructure"; "publishers"; "consumers"; "monitor"; "config"].

(** The paths of a manifest that go to one group, in manifest order. *)
Definition members_of (name : string) (manifest : list string) : list string :=
  filter (fun filepath => Grouping.group_of filepath =? name) manifest.

(** The dictionary of the five groups with the given members. *)
Definition five (a b c d e : list string) : dict (list string) :=
  [ ("infrastructure", a); ("publishers", b); ("consumers", c);
    ("monitor", d); ("config", e) ].

(** Whether a group has a member. *)
Definition has_members (group : string * list string) : bool :=
  match snd group with [] => false | _ => true end.

(** The number of paths in all groups together. *)
Definition grouped_count (groups : dict (list string)) : nat :=
  list_sum (map (fun group => List.length (snd group)) groups).

(** The tokens one request is charged. *)
Definition usage (service : nat -> response) (n : nat) : Z :=
  input_tokens (service n) + output_tokens (service n).

(** The tokens of [count] requests in a row, the first numbered [lo]. *)
Fixpoint usage_from (service : nat -> response) (lo count : nat) : Z :=
  match count with
  | O => 0
  | S count' => usage service lo + usage_from service (S lo) count'
  end.

(** From [st] to [st'] some requests were made, and [total_tokens] grew
    by what they were charged. *)
Definition accounted (service : nat -> response) (st st' : state) : Prop :=
  exists count,
    calls st' = calls st + count
    /\ total_tokens st' = (total_tokens st + usage_from service (calls st) count)%Z.

(** The state after one request with the given prompt. *)
Definition after_request (service : nat -> response) (prompt : prompt)
           (st : state) : state :=
  mkstate (S (calls st)) (total_tokens st + usage service (calls st))
          (disk st) (stdout st) (prompts st ++ [prompt])%list.

(** What gap filling binds: the path of each request, numbered from
    [lo], to the text of its reply without the fence lines, when that
    text is not empty. *)
Fixpoint gap_bindings (service : nat -> response) (lo : nat)
         (missing : list string) : list (string * json) :=
  match missing with
  | [] => []
  | filepath :: missing' =>
      let content := strip_fences (text (service lo)) in
      ((if PyStr.truthy content then [(filepath, JString content)] else [])
         ++ gap_bindings service (S lo) missing')%list
  end.

(** The prompts of gap filling: for each missing path, in order, its
    own prompt, whose context lists the paths bound so far. *)
Fixpoint gap_prompts (service : nat -> response) (lo : nat)
         (files : dict json) (missing : list string) : list prompt :=
  match missing with
  | [] => []
  | filepath :: missing' =>
      let content := strip_fences (text (service lo)) in
      FilePrompt filepath (context_of files)
        :: gap_prompts service (S lo)
             (if PyStr.truthy content
              then set files filepath (JString content) else files)
             missing'
  end.

(** Nothing but the requests, the tokens and the prompts changed. *)
Definition same_world (st st' : state) : Prop :=
  disk st' = disk st /\ stdout st' = stdout st.

(** The text [_generate_manifest] gives to [json.loads]. *)
Definition manifest_text (reply : string) : string :=
  PyStr.strip
    (PyStr.replace "```" EmptyString
       (PyStr.replace "```json" EmptyString (PyStr.strip reply))).

(** The files a writer is asked to write: the joined path and the text
    of every artifact whose content is text, in order. *)
Definition written (output_dir : string) (files : dict json)
  : list (string * string) :=
  flat_map (fun kv => match snd kv with
                      | JString content =>
                          [(Disk.path_join output_dir (fst kv), content)]
                      | _ => []
                      end) files.

(** The text of the file at a path, if there is one. *)
Definition read_text (d : Disk.disk) (path : string) : option string :=
  option_map Disk.content (get d path).

(** Every value of the dictionary is text. *)
Definition all_text (files : dict json) : bool :=
  forallb (fun kv => match snd kv with JString _ => true | _ => false end)
          files.



(** A text on one line: no newline in it. *)
Fixpoint one_line (s : string) : bool :=
  match s with
  | EmptyString => true
  | String c s' => negb (Ascii.eqb c Generator.newline) && one_line s'
  end.



(** The permission bits a write leaves on a path: those of the file that
    is there, or those of a new file. *)
Definition bits_before (umask : Z) (d : Disk.disk) (q : string) : Z :=
  match get d q with
  | Some f => Disk.mode f
  | None => Disk.creation_mode umask
  end.

(** A reply in the format the prompt asks for: blocks, each with the
    text before it, its path and its body, and the text after the last
    block. *)
Fixpoint document (blocks : list (string * string * string)) (post : string)
  : string :=
  match blocks with
  | [] => post
  | (pre, path, body) :: blocks' =>
      pre ++ Doc.block path body ++ document blocks' post
  end.

(** The text before a block and its body are clean, and its path is a
    token without white space. *)
Definition well_formed (blocks : list (string * string * string)) : bool :=
  forallb (fun b => Doc.clean (fst (fst b)) && Doc.plain_label (snd (fst b))
                    && Doc.clean (snd b)) blocks.

(** A path the parser binds as it is: no language identifier, and no
    [filename:] in it. *)
Definition file_label (path : string) : bool :=
  negb (Doc.is_language_tag path) && negb (PyStr.contains "filename:" path).

Definition block_path (b : string * string * string) : string := snd (fst b).

Definition block_body (b : string * string * string) : string := snd b.





End Aux.

(* ================================================================== *)
(** ** Replies and sessions used as examples of these properties *)
(* ================================================================== *)

Module Samples.

Import Doc Staged.

(** The session of one manifest entry whose batch reply binds it and a
    second path. *)
Definition session_a : nat -> response :=
  Scenario.replies [Scenario.manifest_a; Scenario.reply_with_extra].

(** The text [["a.py", "b.py"]]. *)
Definition manifest_ab : string :=
  "[" ++ quoted "a.py" ++ ", " ++ quoted "b.py" ++ "]".

(** The text [{"a.py": "x"}]. *)
Definition reply_a : string :=
  "{" ++ quoted "a.py" ++ ": " ++ quoted "x" ++ "}".


(** The manifest [["a.py"]] inside a fence tagged [json]. *)
Definition fenced_manifest : string :=
  "```json" ++ nl ++ Scenario.manifest_a ++ nl ++ "```".

(** A batch reply with prose around the fenced object. *)
Definition fenced_reply : string :=
  "Here is the JSON:" ++ nl ++ "```json" ++ nl ++ Scenario.reply_other
    ++ nl ++ "```" ++ nl ++ "Done.".

(** A single file inside a fence tagged [python]. *)
Definition fenced_file : string :=
  "  ```python" ++ nl ++ "print(1)" ++ nl ++ nl ++ "x = 2" ++ nl ++ "```" ++ nl.

(** Two blocks in the requested format. *)
Definition blocks2 : list (string * string * string) :=
  [ ("Files:" ++ nl, "a.py", "print(1)" ++ nl);
    (nl, "run.sh", "echo hi" ++ nl) ].

(** The session of [session_gap] with a fenced file as the reply for
    the second entry. *)
Definition session_fill : nat -> response :=
  Scenario.replies [manifest_ab; reply_a; fenced_file].


(** The text [{"a": "x", "a/b": "y"}]: a file, and a file below it. *)
Definition reply_clash : string :=
  "{" ++ quoted "a" ++ ": " ++ quoted "x" ++ ", "
      ++ quoted "a/b" ++ ": " ++ quoted "y" ++ "}".


(** The session of one manifest entry whose batch reply binds a file
    and a file below it. *)
Definition session_clash : nat -> response :=
  Scenario.replies [Scenario.manifest_a; reply_clash].

End Samples.

(* ================================================================== *)
(** ** Facts about dictionaries *)
(* ================================================================== *)

Section DictFacts.

Import PyDict.
Context {V : Type}.
Implicit Types (d : dict V) (k : string) (v : V).

Lemma get_set_same d k v : get (set d k v) k = Some v.
Proof.
  induction d as [|[k' v'] d IH]; simpl.
  - now rewrite String.eqb_refl.
  - destruct (k' =? k) eqn:E; simpl; rewrite E; auto.
Qed.

Lemma get_set_other d k k' v : k <> k' -> get (set d k v) k' = get d k'.
Proof.
  intros Hne. induction d as [|[k0 v0] d IH]; simpl.
  - destruct (String.eqb_spec k k'); [contradiction|reflexivity].
  - destruct (String.eqb_spec k0 k) as [->|].
    + simpl. destruct (String.eqb_spec k k'); [contradiction|reflexivity].
    + simpl. destruct (k0 =? k'); auto.
Qed.

Lemma keys_set d k v p :
  In p (keys (set d k v)) <-> p = k \/ In p (keys d).
Proof.
  unfold keys. induction d as [|[k0 v0] d IH]; simpl.
  - intuition.
  - destruct (String.eqb_spec k0 k) as [->|]; simpl.
    + intuition.
    + rewrite IH. intuition.
Qed.

Lemma keys_update d (bindings : list (string * V)) p :
  In p (keys (update d bindings)) <-> In p (keys d) \/ In p (map fst bindings).
Proof.
  unfold update. revert d.
  induction bindings as [|[k v] bs IH]; intros d; simpl.
  - intuition.
  - rewrite IH, keys_set. intuition.
Qed.

Lemma get_update d (bindings : list (string * V)) k :
  get (update d bindings) k
  = match Doc.last_binding bindings k with
    | Some v => Some v
    | None => get d k
    end.
Proof.
  unfold update. revert d.
  induction bindings as [|[k0 v0] bs IH]; intros d; simpl.
  - reflexivity.
  - rewrite IH. destruct (Doc.last_binding bs k); [reflexivity|].
    destruct (String.eqb_spec k0 k) as [->|Hne].
    + apply get_set_same.
    + now apply get_set_other.
Qed.

Lemma get_None_keys d k : get d k = None <-> ~ In k (keys d).
Proof.
  unfold keys. induction d as [|[k0 v0] d IH]; simpl.
  - intuition.
  - destruct (String.eqb_spec k0 k) as [->|Hne].
    + split; [discriminate|]. intros H. exfalso. apply H. now left.
    + rewrite IH. intuition.
Qed.


(** A dictionary built by assignments has one binding per key. *)
Lemma NoDup_keys_set d k v : NoDup (keys d) -> NoDup (keys (set d k v)).
Proof.
  unfold keys. induction d as [|[k0 v0] d IH]; simpl; intros H.
  - constructor; [intros []|constructor].
  - inversion H as [|? ? Hnot Hd]; subst.
    destruct (String.eqb_spec k0 k) as [->|Hne]; simpl.
    + now constructor.
    + constructor; [|now apply IH].
      intros Hin. apply (keys_set d k v k0) in Hin.
      destruct Hin as [->|Hin]; [now apply Hne|now apply Hnot].
Qed.


(** In a dictionary the last binding of a key is its only one. *)
Lemma last_binding_get d k : NoDup (keys d) -> Doc.last_binding d k = get d k.
Proof.
  unfold keys. induction d as [|[k0 v0] d IH]; simpl; intros H.
  - reflexivity.
  - inversion H as [|? ? Hnot Hd]; subst. rewrite (IH Hd).
    destruct (String.eqb_spec k0 k) as [->|Hne].
    + apply get_None_keys in Hnot. now rewrite Hnot.
    + now destruct (get d k).
Qed.

End DictFacts.

(* ================================================================== *)
(** ** Facts about text, fences and the pattern *)
(* ================================================================== *)

Section StringFacts.

Import Doc Generator.

Lemma str_length_app (s t : string) :
  String.length (s ++ t) = String.length s + String.length t.
Proof. induction s; simpl; auto. Qed.

Lemma str_app_assoc (s t u : string) : (s ++ t) ++ u = s ++ t ++ u.
Proof. induction s; simpl; congruence. Qed.

Lemma str_app_nil_r (s : string) : s ++ EmptyString = s.
Proof. induction s; simpl; congruence. Qed.

Lemma startswith_app (p s : string) : PyStr.startswith p (p ++ s) = true.
Proof.
  induction p as [|a p IH]; simpl; [reflexivity|].
  now rewrite Ascii.eqb_refl.
Qed.

Lemma clean_tail (c : ascii) (s : string) :
  clean (String c s) = true -> clean s = true.
Proof.
  unfold clean, fence_free. intros H.
  apply andb_true_iff in H as [Hf He].
  apply andb_true_iff. split.
  - cbn [PyStr.contains] in Hf. apply negb_true_iff in Hf.
    apply orb_false_iff in Hf as [_ Hf]. now rewrite Hf.
  - destruct s as [|c' s']; [reflexivity|]. exact He.
Qed.

Lemma fence_free_tail (c : ascii) (s : string) :
  fence_free (String c s) = true -> fence_free s = true.
Proof.
  unfold fence_free. cbn [PyStr.contains]. intros H.
  apply negb_true_iff in H. apply orb_false_iff in H as [_ H].
  now rewrite H.
Qed.

Lemma fence_free_head (s : string) :
  fence_free s = true -> PyStr.startswith fence s = false.
Proof.
  unfold fence_free. intros H. apply negb_true_iff in H.
  destruct s; [reflexivity|]. cbn [PyStr.contains] in H.
  now apply orb_false_iff in H as [H _].
Qed.

(** A clean text that is not empty does not begin a fence, whatever
    follows it. *)
Lemma clean_no_fence_start (c : ascii) (s rest : string) :
  clean (String c s) = true ->
  PyStr.startswith fence (String c s ++ rest) = false.
Proof.
  intros H. unfold clean in H. apply andb_true_iff in H as [Hf He].
  apply fence_free_head in Hf. apply negb_true_iff in He.
  unfold fence in *.
  destruct s as [|c2 [|c3 s3]];
    cbn [PyStr.startswith ends_with_backquote append] in *.
  - unfold backquote in He. rewrite Ascii.eqb_sym in He. now rewrite He.
  - destruct (Ascii.eqb "`" c); [|reflexivity].
    unfold backquote in He. rewrite Ascii.eqb_sym in He. now rewrite He.
  - destruct (Ascii.eqb "`" c); [|reflexivity].
    destruct (Ascii.eqb "`" c2); [|reflexivity].
    destruct (Ascii.eqb "`" c3); [|reflexivity].
    discriminate Hf.
Qed.

Lemma match_at_no_fence (s : string) :
  PyStr.startswith fence s = false -> match_at s = None.
Proof. unfold match_at. now intros ->. Qed.

(** The search passes over clean text. *)
Lemma finditer_skip_clean (pre rest : string) :
  clean pre = true ->
  finditer_from 0 (pre ++ rest) = finditer_from 0 rest.
Proof.
  induction pre as [|c pre IH]; intros H; [reflexivity|].
  change (String c pre ++ rest) with (String c (pre ++ rest)).
  cbn [finditer_from].
  change (String c (pre ++ rest)) with (String c pre ++ rest).
  rewrite (match_at_no_fence _ (clean_no_fence_start c pre rest H)).
  apply IH. eapply clean_tail; eauto.
Qed.

(** No match in a text without a fence. *)
Lemma finditer_fence_free (post : string) :
  fence_free post = true -> finditer_from 0 post = [].
Proof.
  induction post as [|c post IH]; intros H; [reflexivity|].
  cbn [finditer_from].
  rewrite (match_at_no_fence _ (fence_free_head _ H)).
  apply IH. eapply fence_free_tail; eauto.
Qed.

(** Group 2 of a block with a clean body is the body. *)
Lemma split_fence_clean (body rest : string) :
  clean body = true ->
  split_fence (body ++ fence ++ rest) = Some (body, rest).
Proof.
  induction body as [|c body IH]; intros H.
  - reflexivity.
  - change (String c body ++ fence ++ rest)
      with (String c (body ++ fence ++ rest)).
    cbn [split_fence].
    change (String c (body ++ fence ++ rest))
      with (String c body ++ fence ++ rest).
    rewrite (clean_no_fence_start c body _ H).
    rewrite IH by (eapply clean_tail; eauto). reflexivity.
Qed.

Lemma no_space_not_newline (c : ascii) :
  PyStr.isspace c = false -> Ascii.eqb c newline = false.
Proof.
  intros H. destruct (Ascii.eqb_spec c newline) as [->|]; [|reflexivity].
  discriminate H.
Qed.

(** Group 1 of a line without white space is the line. *)
Lemma span_line_label (label rest : string) :
  no_space label = true ->
  span_line (label ++ nl ++ rest) = (label, nl ++ rest).
Proof.
  induction label as [|c label IH]; intros H.
  - reflexivity.
  - cbn [no_space] in H. apply andb_true_iff in H as [Hc H].
    apply negb_true_iff in Hc.
    change (String c label ++ nl ++ rest)
      with (String c (label ++ nl ++ rest)).
    cbn [span_line]. rewrite (no_space_not_newline c Hc).
    now rewrite (IH H).
Qed.

Lemma match_groups_label (label body rest : string) :
  plain_label label = true -> clean body = true ->
  match_groups (label ++ nl ++ body ++ fence ++ rest)
  = Some (label, body, rest).
Proof.
  intros Hl Hb. unfold plain_label in Hl.
  apply andb_true_iff in Hl as [Hne Hns].
  unfold match_groups. rewrite (span_line_label _ _ Hns).
  destruct label as [|c label]; [discriminate Hne|].
  change (nl ++ body ++ fence ++ rest)
    with (String newline (body ++ fence ++ rest)).
  cbv iota beta. now rewrite split_fence_clean.
Qed.

Lemma match_spaces_label (label body rest : string) :
  plain_label label = true -> clean body = true ->
  match_spaces (label ++ nl ++ body ++ fence ++ rest)
  = Some (label, body, rest).
Proof.
  intros Hl Hb. pose proof (match_groups_label label body rest Hl Hb) as G.
  unfold plain_label in Hl. apply andb_true_iff in Hl as [Hne Hns].
  destruct label as [|c label]; [discriminate Hne|].
  cbn [no_space] in Hns. apply andb_true_iff in Hns as [Hc _].
  apply negb_true_iff in Hc.
  change (String c label ++ nl ++ body ++ fence ++ rest)
    with (String c (label ++ nl ++ body ++ fence ++ rest)) in *.
  cbn [match_spaces]. rewrite Hc. exact G.
Qed.

(** The pattern matches a block of the requested format as a whole. *)
Lemma match_at_block (path body rest : string) :
  plain_label path = true -> clean body = true ->
  match_at (block path body ++ rest) = Some (path, body, rest).
Proof.
  intros Hl Hb. unfold block.
  rewrite !str_app_assoc.
  unfold match_at. rewrite startswith_app.
  change (PyStr.drop 3 (fence ++ "filename: " ++ path ++ nl ++ body ++ fence ++ rest))
    with ("filename: " ++ path ++ nl ++ body ++ fence ++ rest).
  change ("filename: " ++ path ++ nl ++ body ++ fence ++ rest)
    with ("filename:" ++ String " " (path ++ nl ++ body ++ fence ++ rest)).
  rewrite startswith_app.
  change (PyStr.drop 9 ("filename:" ++ String " " (path ++ nl ++ body ++ fence ++ rest)))
    with (String " " (path ++ nl ++ body ++ fence ++ rest)).
  cbn [match_spaces].
  change (PyStr.isspace " ") with true. cbv iota.
  now rewrite match_spaces_label.
Qed.

Lemma finditer_from_skip (x rest : string) :
  finditer_from (String.length x) (x ++ rest) = finditer_from 0 rest.
Proof. induction x as [|c x IH]; [reflexivity|]. exact IH. Qed.

(** A match is followed by the search in the text after it. *)
Lemma finditer_match (c : ascii) (x rest label body : string) :
  match_at (String c x ++ rest) = Some (label, body, rest) ->
  finditer_from 0 (String c x ++ rest)
  = (label, body) :: finditer_from 0 rest.
Proof.
  intros H.
  change (String c x ++ rest) with (String c (x ++ rest)) in *.
  cbn [finditer_from]. rewrite H.
  replace (String.length (String c (x ++ rest)) - String.length rest - 1)
    with (String.length x)
    by (cbn [String.length]; rewrite str_length_app; lia).
  now rewrite finditer_from_skip.
Qed.

Lemma finditer_block (path body rest : string) :
  plain_label path = true -> clean body = true ->
  finditer_from 0 (block path body ++ rest)
  = (path, body) :: finditer_from 0 rest.
Proof.
  intros Hl Hb. pose proof (match_at_block path body rest Hl Hb) as H.
  unfold block in *. 
  change (fence ++ "filename: " ++ path ++ nl ++ body ++ fence)
    with (String "`" ("``filename: " ++ path ++ nl ++ body ++ fence)) in *.
  now apply finditer_match.
Qed.

End StringFacts.

(* ================================================================== *)
(** ** Labels, language identifiers and whole blocks *)
(* ================================================================== *)

Section LabelFacts.

Import Doc Generator.

Lemma isspace_lower_char (c : ascii) :
  PyStr.isspace (PyStr.lower_char c) = PyStr.isspace c.
Proof. destruct c as [[] [] [] [] [] [] [] []]; reflexivity. Qed.

Lemma no_space_lower (s : string) : no_space (PyStr.lower s) = no_space s.
Proof.
  induction s as [|c s IH]; [reflexivity|].
  cbn [PyStr.lower no_space]. now rewrite isspace_lower_char, IH.
Qed.

Lemma plain_label_lower (s : string) :
  plain_label (PyStr.lower s) = plain_label s.
Proof.
  unfold plain_label. rewrite no_space_lower. now destruct s.
Qed.

Lemma lower_char_eqb (a b : ascii) :
  Ascii.eqb a b = true ->
  Ascii.eqb (PyStr.lower_char a) (PyStr.lower_char b) = true.
Proof.
  intros H. apply Ascii.eqb_eq in H as ->. apply Ascii.eqb_refl.
Qed.

Lemma startswith_lower (p s : string) :
  PyStr.startswith p s = true ->
  PyStr.startswith (PyStr.lower p) (PyStr.lower s) = true.
Proof.
  revert s. induction p as [|a p IH]; intros [|b s] H;
    cbn [PyStr.lower PyStr.startswith] in *; try easy.
  apply andb_true_iff in H as [Hab H].
  now rewrite (lower_char_eqb _ _ Hab), (IH _ H).
Qed.

Lemma lstrip_no_space (s : string) : no_space s = true -> PyStr.lstrip s = s.
Proof.
  destruct s as [|c s]; [reflexivity|]. cbn [no_space PyStr.lstrip].
  intros H. apply andb_true_iff in H as [H _].
  apply negb_true_iff in H. now rewrite H.
Qed.

Lemma rstrip_no_space (s : string) : no_space s = true -> PyStr.rstrip s = s.
Proof.
  induction s as [|c s IH]; [reflexivity|]. cbn [no_space PyStr.rstrip].
  intros H. apply andb_true_iff in H as [Hc H].
  apply negb_true_iff in Hc. rewrite (IH H), Hc. now destruct s.
Qed.

Lemma strip_no_space (s : string) : no_space s = true -> PyStr.strip s = s.
Proof.
  intros H. unfold PyStr.strip. rewrite (lstrip_no_space _ H).
  now apply rstrip_no_space.
Qed.

Lemma mem_In (x : string) (xs : list string) :
  PyStr.mem x xs = true <-> In x xs.
Proof.
  unfold PyStr.mem. rewrite existsb_exists. split.
  - intros (y & Hy & E). apply String.eqb_eq in E. now subst.
  - intros H. exists x. split; [exact H|apply String.eqb_refl].
Qed.

(** Every language identifier of the skip list is a token without white
    space that does not begin with [filename:]. *)
Lemma language_tags_plain (t : string) :
  In t language_tags ->
  plain_label t = true /\ PyStr.startswith "filename:" t = false.
Proof.
  unfold language_tags. simpl.
  intros H. repeat (destruct H as [<-|H]; [split; reflexivity|]).
  contradiction.
Qed.

(** So is every spelling of one, in capitals or not. *)
Lemma tag_spelling_plain (label : string) :
  In (PyStr.lower label) language_tags ->
  plain_label label = true /\ PyStr.startswith "filename:" label = false.
Proof.
  intros H. destruct (language_tags_plain _ H) as [Hp Hf]. split.
  - now rewrite <- plain_label_lower.
  - destruct (PyStr.startswith "filename:" label) eqn:E; [|reflexivity].
    apply startswith_lower in E.
    change (PyStr.lower "filename:") with "filename:" in E. congruence.
Qed.

Lemma tag_spelling_is_tag (label : string) :
  In (PyStr.lower label) language_tags -> is_language_tag label = true.
Proof.
  intros H. unfold is_language_tag.
  destruct (tag_spelling_plain _ H) as [Hp _].
  unfold plain_label in Hp. apply andb_true_iff in Hp as [_ Hp].
  rewrite (strip_no_space _ Hp). now apply mem_In.
Qed.

(** The body of the loop in terms of [is_language_tag] and
    [label_key]. *)
Lemma parse_step_eq (files : PyDict.dict string) (label body : string) :
  parse_step files (label, body)
  = if is_language_tag label then files
    else PyDict.set files (label_key label) (PyStr.strip body).
Proof. reflexivity. Qed.

(** A text without newline that begins a line: what it is a prefix of
    shows before the newline. *)
Lemma startswith_before_newline (p line rest : string) :
  no_space p = true ->
  PyStr.startswith p (line ++ nl ++ rest) = true ->
  PyStr.startswith p line = true.
Proof.
  revert line. induction p as [|a p IH]; intros line Hp H; [reflexivity|].
  cbn [no_space] in Hp. apply andb_true_iff in Hp as [Ha Hp].
  apply negb_true_iff in Ha.
  destruct line as [|b line].
  - cbn in H. apply andb_true_iff in H as [H _].
    apply Ascii.eqb_eq in H. subst a. discriminate Ha.
  - change (String b line ++ nl ++ rest)
      with (String b (line ++ nl ++ rest)) in H.
    cbn [PyStr.startswith] in *.
    apply andb_true_iff in H as [Hab H]. rewrite Hab. cbn.
    now apply IH with (2 := H).
Qed.

(** The pattern matches a block whose opening line is a label that does
    not begin with [filename:]. *)
Lemma match_at_bare_block (label body rest : string) :
  plain_label label = true ->
  PyStr.startswith "filename:" label = false ->
  clean body = true ->
  match_at (bare_block label body ++ rest) = Some (label, body, rest).
Proof.
  intros Hl Hf Hb. unfold bare_block. rewrite !str_app_assoc.
  unfold match_at. rewrite startswith_app.
  change (PyStr.drop 3 (fence ++ label ++ nl ++ body ++ fence ++ rest))
    with (label ++ nl ++ body ++ fence ++ rest).
  destruct (PyStr.startswith "filename:"
              (label ++ nl ++ body ++ fence ++ rest)) eqn:E.
  - apply startswith_before_newline in E; [congruence|reflexivity].
  - now apply match_groups_label.
Qed.

Lemma finditer_bare_block (label body rest : string) :
  plain_label label = true ->
  PyStr.startswith "filename:" label = false ->
  clean body = true ->
  finditer_from 0 (bare_block label body ++ rest)
  = (label, body) :: finditer_from 0 rest.
Proof.
  intros Hl Hf Hb.
  pose proof (match_at_bare_block label body rest Hl Hf Hb) as H.
  unfold bare_block in *.
  change (fence ++ label ++ nl ++ body ++ fence)
    with (String "`" ("``" ++ label ++ nl ++ body ++ fence)) in *.
  now apply finditer_match.
Qed.

(** The parser on a reply that begins with clean text and a block of
    the requested format. *)
Lemma parse_block_first (pre path body rest : string) :
  clean pre = true -> plain_label path = true -> clean body = true ->
  finditer (pre ++ block path body ++ rest)
  = (path, body) :: finditer rest.
Proof.
  intros Hpre Hl Hb. unfold finditer.
  rewrite (finditer_skip_clean _ _ Hpre).
  now apply finditer_block.
Qed.

Lemma parse_bare_block_first (pre label body rest : string) :
  clean pre = true -> plain_label label = true ->
  PyStr.startswith "filename:" label = false -> clean body = true ->
  finditer (pre ++ bare_block label body ++ rest)
  = (label, body) :: finditer rest.
Proof.
  intros Hpre Hl Hf Hb. unfold finditer.
  rewrite (finditer_skip_clean _ _ Hpre).
  now apply finditer_bare_block.
Qed.

End LabelFacts.

(* ================================================================== *)
(** ** The grouping step *)
(* ================================================================== *)

Section GroupingFacts.

Import PyDict Grouping.

(** C1, amended: for the manifest ["docker-compose.yml",
    "agent1/Dockerfile", "agent1/publish.py"] the grouping step produces
    exactly {"infrastructure": ["docker-compose.yml"], "config":
    ["agent1/Dockerfile", "agent1/publish.py"]}: the text "publisher" does
    not occur in "agent1/publish.py", so no "publishers" group exists. *)
Theorem group_files_end_to_end :
  _group_files Scenario.manifest3
  = [ ("infrastructure", ["docker-compose.yml"]);
      ("config", ["agent1/Dockerfile"; "agent1/publish.py"]) ].
Proof. reflexivity. Qed.

(** C1 as stated fails: the grouping of that manifest does not have the
    bindings {"infrastructure": ["docker-compose.yml"], "publishers":
    ["agent1/publish.py"], "config": ["agent1/Dockerfile"]}. *)
Lemma group_files_end_to_end_as_stated_fails :
  ~ Doc.same_bindings
      (_group_files Scenario.manifest3)
      [ ("infrastructure", ["docker-compose.yml"]);
        ("publishers", ["agent1/publish.py"]);
        ("config", ["agent1/Dockerfile"]) ].
Proof.
  intro H. specialize (H "publishers"). vm_compute in H. discriminate H.
Qed.

End GroupingFacts.

(* ================================================================== *)
(** ** The file writers *)
(* ================================================================== *)

Section WriterFacts.

Import PyDict Json.

(** A file that [open(..., 'w')] creates has no execute bit, whatever
    the umask. *)
Lemma creation_mode_not_executable (umask : Z) (text : string) :
  Disk.executable (Disk.mkfile text (Disk.creation_mode umask)) = false.
Proof.
  unfold Disk.executable, Disk.creation_mode.
  cbn [Disk.mode].
  assert (E : Z.land (Z.land 438 (Z.lnot umask)) 73 = 0%Z).
  { rewrite (Z.land_comm 438 (Z.lnot umask)), <- Z.land_assoc.
    change (Z.land 438 73) with 0%Z. apply Z.land_0_r. }
  now rewrite E.
Qed.

(** The writer of [MultiAgentGenerator], when it writes a file that the
    destination does not hold yet: the file is executable exactly when
    the key ends in [.sh]. *)
Lemma generator_writer_marks_scripts
      (umask : Z) (output_dir : string) (d d' : Disk.disk)
      (path text : string) :
  Generator.write_file umask output_dir d (path, text) = Effect.Done d' ->
  get d (Disk.path_join output_dir path) = None ->
  exists f,
    get d' (Disk.path_join output_dir path) = Some f
    /\ Disk.content f = text
    /\ Disk.executable f = PyStr.endswith ".sh" path.
Proof.
  unfold Generator.write_file, Disk.write_under, Disk.path_join.
  cbn [fst snd]. intros H Hnew.
  destruct (Disk.has_nul path); [discriminate H|].
  destruct (negb (Disk.covered _)); [discriminate H|].
  destruct (Disk.names path); [discriminate H|].
  destruct (negb (Disk.mkdir _ _)); [discriminate H|].
  destruct (Disk.is_dir _ _); [discriminate H|].
  cbn [Effect.and_then] in H. injection H as <-.
  unfold Disk.write_text. rewrite Hnew.
  destruct (PyStr.endswith ".sh" path).
  - unfold Disk.chmod. rewrite get_set_same. rewrite get_set_same.
    eexists; split; [reflexivity|]. split; reflexivity.
  - rewrite get_set_same. eexists; split; [reflexivity|].
    split; [reflexivity|].
    apply creation_mode_not_executable.
Qed.

(** The two artifact sets of the documentation, written by the writer of
    [MultiAgentGenerator] to an empty destination: [scripts/run.sh] is
    executable (0o755), [app.py] is not. *)
Lemma generator_writer_examples (umask : Z) :
  Generator._write_files umask [("scripts/run.sh", "echo hi")] "out" []
  = Effect.Done [("out/scripts/run.sh", Disk.mkfile "echo hi" 493)]
  /\ Disk.executable (Disk.mkfile "echo hi" 493) = true
  /\ Generator._write_files umask [("app.py", "print(1)")] "out" []
     = Effect.Done
         [("out/app.py", Disk.mkfile "print(1)" (Disk.creation_mode umask))]
  /\ Disk.executable (Disk.mkfile "print(1)" (Disk.creation_mode umask))
     = false.
Proof.
  repeat split; try reflexivity. apply creation_mode_not_executable.
Qed.

(** C3 at its failing input: the writer of [ImprovedMultiAgentGenerator]
    given {"scripts/run.sh": "echo hi"} creates the file with the bits of
    a new file and never changes them; the file is not executable, though
    its path ends in [.sh]. *)
Theorem staged_writer_leaves_script_not_executable (umask : Z) :
  Staged._write_files umask [("scripts/run.sh", JString "echo hi")] "out"
                      Staged.state0
  = Staged.Returned tt
      (Staged.mkstate 0 0
         [("out/scripts/run.sh",
           Disk.mkfile "echo hi" (Disk.creation_mode umask))] [] [])
  /\ PyStr.endswith ".sh" "scripts/run.sh" = true
  /\ Disk.executable (Disk.mkfile "echo hi" (Disk.creation_mode umask))
     = false.
Proof.
  repeat split; try reflexivity. apply creation_mode_not_executable.
Qed.

End WriterFacts.

(* ================================================================== *)
(** ** The fenced-block parser *)
(* ================================================================== *)

Section ParserClaims.

Import Doc Generator.

(** The bindings the loop makes for a list of matches, in order. *)
Lemma parse_fold_bindings (ms : list (string * string))
      (files : PyDict.dict string) (k : string) :
  PyDict.get (fold_left parse_step ms files) k
  = match last_binding
            (map (fun m => (label_key (fst m), PyStr.strip (snd m)))
                 (filter (fun m => negb (is_language_tag (fst m))) ms)) k with
    | Some v => Some v
    | None => PyDict.get files k
    end.
Proof.
  revert files. induction ms as [|[label body] ms IH]; intros files.
  - reflexivity.
  - cbn [fold_left filter fst]. rewrite IH, parse_step_eq.
    destruct (is_language_tag label); cbn [negb]; [reflexivity|].
    cbn [map last_binding fst snd].
    destruct (last_binding _ k); [reflexivity|].
    destruct (String.eqb_spec (label_key label) k) as [->|Hne].
    + apply get_set_same.
    + now apply get_set_other.
Qed.

(** C7: a reply that holds exactly two blocks, labelled [filename: a.py]
    and [filename: b.py], parses to the two paths with the trimmed
    bodies; when one path labels the two blocks the second body is the
    result; and in any reply the value of a path is the trimmed body of
    the last block labelled with it. *)
Theorem parse_two_blocks (pre mid post body1 body2 : string) :
  clean pre = true -> clean mid = true -> fence_free post = true ->
  clean body1 = true -> clean body2 = true ->
  _parse_files_from_response
    (pre ++ block "a.py" body1 ++ mid ++ block "b.py" body2 ++ post)
  = [("a.py", PyStr.strip body1); ("b.py", PyStr.strip body2)]
  /\ (forall path,
         plain_label path = true -> is_language_tag path = false ->
         _parse_files_from_response
           (pre ++ block path body1 ++ mid ++ block path body2 ++ post)
         = [(label_key path, PyStr.strip body2)])
  /\ (forall content k,
         PyDict.get (_parse_files_from_response content) k
         = last_binding
             (map (fun m => (label_key (fst m), PyStr.strip (snd m)))
                  (filter (fun m => negb (is_language_tag (fst m)))
                          (finditer content))) k).
Proof.
  intros Hpre Hmid Hpost Hb1 Hb2.
  assert (two : forall p1 p2,
             plain_label p1 = true -> plain_label p2 = true ->
             finditer (pre ++ block p1 body1 ++ mid ++ block p2 body2 ++ post)
             = [(p1, body1); (p2, body2)]).
  { intros p1 p2 H1 H2.
    rewrite parse_block_first by assumption.
    rewrite parse_block_first by assumption.
    unfold finditer. now rewrite finditer_fence_free. }
  split; [|split].
  - unfold _parse_files_from_response. now rewrite two.
  - intros path Hp Htag. unfold _parse_files_from_response.
    rewrite (two path path Hp Hp). cbn [fold_left].
    rewrite !parse_step_eq, Htag. cbn [PyDict.set].
    now rewrite String.eqb_refl.
  - intros content k. unfold _parse_files_from_response.
    rewrite parse_fold_bindings.
    now destruct (last_binding _ k).
Qed.

(** The parser on the reply [Scenario.two_blocks]: the theorem at a
    concrete reply. *)
Lemma parse_two_blocks_example :
  _parse_files_from_response Scenario.two_blocks
  = [("a.py", "print(1)"); ("b.py", "x = 2")].
Proof.
  exact (proj1 (parse_two_blocks
                  ("Here are the files:" ++ nl) (nl ++ "and" ++ nl)
                  (nl ++ "Done.") ("print(1)" ++ nl)
                  (nl ++ "  x = 2  " ++ nl)
                  eq_refl eq_refl eq_refl eq_refl eq_refl)).
Defined.

(** C8: a block whose label is only a language identifier of the skip
    list, in any capitalisation, adds nothing to the result: the loop
    leaves the dictionary as it is, and a reply that begins with such a
    block parses like the text after the block. *)
Theorem language_tag_block_excluded
        (pre label body post : string) (files : PyDict.dict string) :
  In (PyStr.lower label) language_tags ->
  clean pre = true -> clean body = true ->
  parse_step files (label, body) = files
  /\ _parse_files_from_response (pre ++ bare_block label body ++ post)
     = _parse_files_from_response post.
Proof.
  intros Htag Hpre Hb.
  pose proof (tag_spelling_is_tag _ Htag) as Hskip.
  destruct (tag_spelling_plain _ Htag) as [Hp Hf].
  split.
  - now rewrite parse_step_eq, Hskip.
  - unfold _parse_files_from_response.
    rewrite parse_bare_block_first by assumption.
    cbn [fold_left]. now rewrite parse_step_eq, Hskip.
Qed.

Lemma language_tag_block_excluded_example :
  _parse_files_from_response
    ("Run it:" ++ nl ++ bare_block "python" ("print(1)" ++ nl) ++ nl
       ++ block "a.py" "x")
  = _parse_files_from_response (nl ++ block "a.py" "x")
  /\ _parse_files_from_response (nl ++ block "a.py" "x") = [("a.py", "x")].
Proof.
  split; [|reflexivity].
  exact (proj2 (language_tag_block_excluded
                  ("Run it:" ++ nl) "python" ("print(1)" ++ nl)
                  (nl ++ block "a.py" "x") []
                  (or_introl eq_refl) eq_refl eq_refl)).
Defined.

End ParserClaims.

(* ================================================================== *)
(** ** Dockerfile labels; the iteration merge *)
(* ================================================================== *)

Section DockerfileClaims.

Import Doc Generator.

Lemma slash_lower_char (c : ascii) :
  Ascii.eqb "/" (PyStr.lower_char c) = Ascii.eqb "/" c.
Proof. destruct c as [[] [] [] [] [] [] [] []]; reflexivity. Qed.

Lemma contains_slash_lower (s : string) :
  PyStr.contains "/" (PyStr.lower s) = PyStr.contains "/" s.
Proof.
  induction s as [|c s IH]; [reflexivity|].
  cbn [PyStr.lower PyStr.contains PyStr.startswith].
  now rewrite slash_lower_char, IH.
Qed.

(** No language identifier of the skip list holds a path separator. *)
Lemma language_tags_no_slash (t : string) :
  In t language_tags -> PyStr.contains "/" t = false.
Proof.
  unfold language_tags. simpl.
  intros H. repeat (destruct H as [<-|H]; [reflexivity|]).
  contradiction.
Qed.

(** A path with a directory is never taken for a language identifier. *)
Lemma path_with_directory_not_tag (path : string) :
  plain_label path = true -> PyStr.contains "/" path = true ->
  is_language_tag path = false.
Proof.
  intros Hp Hs. unfold is_language_tag.
  unfold plain_label in Hp. apply andb_true_iff in Hp as [_ Hp].
  rewrite (strip_no_space _ Hp).
  destruct (PyStr.mem (PyStr.lower path) language_tags) eqn:E; [|reflexivity].
  apply mem_In, language_tags_no_slash in E.
  rewrite contains_slash_lower in E. congruence.
Qed.

(** C10: a block labelled [Dockerfile] (in any capitalisation, with or
    without [filename:]) is taken for the language identifier
    [dockerfile] and left out of the result; a block labelled with a path
    that holds a separator is kept, as [agent1/Dockerfile] is. *)
Theorem dockerfile_label_excluded (pre label body post path : string) :
  PyStr.lower label = "dockerfile" ->
  clean pre = true -> clean body = true -> fence_free post = true ->
  plain_label path = true -> PyStr.contains "/" path = true ->
  _parse_files_from_response (pre ++ bare_block label body ++ post) = []
  /\ _parse_files_from_response (pre ++ block label body ++ post) = []
  /\ _parse_files_from_response (pre ++ block path body ++ post)
     = [(label_key path, PyStr.strip body)]
  /\ label_key "agent1/Dockerfile" = "agent1/Dockerfile".
Proof.
  intros Hlabel Hpre Hb Hpost Hpath Hslash.
  assert (Htag : In (PyStr.lower label) language_tags)
    by (rewrite Hlabel; simpl; auto 10).
  pose proof (tag_spelling_is_tag _ Htag) as Hskip.
  destruct (tag_spelling_plain _ Htag) as [Hp Hf].
  pose proof (finditer_fence_free _ Hpost) as Hnone.
  unfold _parse_files_from_response.
  repeat split.
  - rewrite parse_bare_block_first by assumption.
    unfold finditer. rewrite Hnone. cbn [fold_left].
    now rewrite parse_step_eq, Hskip.
  - rewrite parse_block_first by assumption.
    unfold finditer. rewrite Hnone. cbn [fold_left].
    now rewrite parse_step_eq, Hskip.
  - rewrite parse_block_first by assumption.
    unfold finditer. rewrite Hnone. cbn [fold_left].
    now rewrite parse_step_eq, (path_with_directory_not_tag _ Hpath Hslash).
Qed.

Lemma dockerfile_label_excluded_example :
  _parse_files_from_response
    ("The image:" ++ nl ++ bare_block "Dockerfile" ("FROM python:3.9" ++ nl))
  = []
  /\ _parse_files_from_response
       ("The image:" ++ nl ++ block "Dockerfile" ("FROM python:3.9" ++ nl))
     = []
  /\ _parse_files_from_response
       ("The image:" ++ nl
          ++ block "agent1/Dockerfile" ("FROM python:3.9" ++ nl))
     = [("agent1/Dockerfile", "FROM python:3.9")].
Proof.
  pose proof (dockerfile_label_excluded
                ("The image:" ++ nl) "Dockerfile" ("FROM python:3.9" ++ nl)
                EmptyString "agent1/Dockerfile"
                eq_refl eq_refl eq_refl eq_refl eq_refl eq_refl)
    as (H1 & H2 & H3 & _).
  rewrite !str_app_nil_r in *.
  split; [exact H1|]. split; [exact H2|exact H3].
Defined.

End DockerfileClaims.

Section IterationClaims.

Import PyDict Doc Generator.

Lemma NoDup_keys_parse (ms : list (string * string)) (files : dict string) :
  NoDup (keys files) -> NoDup (keys (fold_left parse_step ms files)).
Proof.
  revert files. induction ms as [|[label body] ms IH]; intros files H.
  - exact H.
  - cbn [fold_left]. apply IH. rewrite parse_step_eq.
    destruct (is_language_tag label); [exact H|].
    now apply NoDup_keys_set.
Qed.

(** C9: the dictionary [iterate_on_system] returns binds every path of
    the reply to the reply's content and every other path as before; no
    key of the existing set is lost; and the documentation's example
    merges to {"a.py": "v2", "c.py": "v3"}. *)
Theorem iterate_merges_into_existing
        (umask : Z) (reply output_dir : string)
        (existing_files : dict string) (d : Disk.disk) :
  (forall k,
      get (fst (iterate_on_system umask reply existing_files output_dir d)) k
      = match get (_parse_files_from_response reply) k with
        | Some v => Some v
        | None => get existing_files k
        end)
  /\ incl (keys existing_files)
          (keys (fst (iterate_on_system umask reply existing_files
                                        output_dir d)))
  /\ fst (iterate_on_system umask Scenario.modification_reply
                            [("a.py", "v1")] output_dir d)
     = [("a.py", "v2"); ("c.py", "v3")].
Proof.
  unfold iterate_on_system. cbn [fst].
  change (fold_left (fun acc kv => set acc (fst kv) (snd kv))
                    (_parse_files_from_response reply) existing_files)
    with (update existing_files (_parse_files_from_response reply)).
  split; [|split].
  - intros k. rewrite get_update, last_binding_get; [reflexivity|].
    apply NoDup_keys_parse. constructor.
  - intros k Hk. apply keys_update. now left.
  - reflexivity.
Qed.

End IterationClaims.

(* ================================================================== *)
(** ** The monad of a session; the indices of the batch loop *)
(* ================================================================== *)

Section MonadFacts.

Import Staged.

Lemma bind_Returned {A B} (m : M A) (k : A -> M B) st b st2 :
  bind m k st = Returned b st2 ->
  exists a st1, m st = Returned a st1 /\ k a st1 = Returned b st2.
Proof.
  unfold bind. destruct (m st) as [a st1| | | |]; try discriminate.
  intros H. now exists a, st1.
Qed.

Lemma ret_Returned {A} (a b : A) st st' :
  ret a st = Returned b st' -> a = b /\ st = st'.
Proof. unfold ret. intros H. now inversion H. Qed.

(** A loop over the image of a list. *)
Lemma for_each_map {A X Y} (f : X -> Y) (xs : list X)
      (body : A -> Y -> M A) (acc : A) (st : state) :
  for_each (map f xs) body acc st
  = for_each xs (fun a x => body a (f x)) acc st.
Proof.
  revert acc st. induction xs as [|x xs IH]; intros acc st; [reflexivity|].
  cbn [map for_each]. unfold bind.
  destruct (body acc (f x) st) as [acc1 st1| | | |]; try reflexivity. apply IH.
Qed.

(** Two bodies that agree on the items of the list make the same loop. *)
Lemma for_each_ext {A X} (xs : list X) (body1 body2 : A -> X -> M A)
      (acc : A) (st : state) :
  (forall x a s, In x xs -> body1 a x s = body2 a x s) ->
  for_each xs body1 acc st = for_each xs body2 acc st.
Proof.
  revert acc st. induction xs as [|x xs IH]; intros acc st H; [reflexivity|].
  cbn [for_each]. unfold bind. rewrite (H x acc st) by now left.
  destruct (body2 acc x st) as [acc1 st1| | | |]; try reflexivity.
  apply IH. intros y a s Hy. apply H. now right.
Qed.

(** What every round of a loop keeps holds when the loop returns. *)
Lemma for_each_invariant {A X} (I : A -> state -> Prop) (xs : list X)
      (body : A -> X -> M A) :
  (forall x a s a' s',
      In x xs -> I a s -> body a x s = Returned a' s' -> I a' s') ->
  forall acc st acc' st',
    I acc st -> for_each xs body acc st = Returned acc' st' -> I acc' st'.
Proof.
  induction xs as [|x xs IH]; intros Hstep acc st acc' st' HI H.
  - apply ret_Returned in H as [<- <-]. exact HI.
  - cbn [for_each] in H. apply bind_Returned in H as (a & s & Hb & H).
    apply IH with (2 := Hstep x acc st a s (or_introl eq_refl) HI Hb) (3 := H).
    intros y a0 s0 a1 s1 Hy. apply Hstep. now right.
Qed.

(** The requests of a loop are the requests of its rounds. *)
Lemma for_each_calls {A X} (w : X -> nat) (xs : list X)
      (body : A -> X -> M A) :
  (forall x a s a' s',
      In x xs -> body a x s = Returned a' s' -> calls s' = calls s + w x) ->
  forall acc st acc' st',
    for_each xs body acc st = Returned acc' st' ->
    calls st' = calls st + list_sum (map w xs).
Proof.
  induction xs as [|x xs IH]; intros Hstep acc st acc' st' H.
  - apply ret_Returned in H as [_ <-]. cbn. lia.
  - cbn [for_each] in H. apply bind_Returned in H as (a & s & Hb & H).
    apply IH in H; [|intros y a0 s0 a1 s1 Hy; apply Hstep; now right].
    unfold list_sum in H.
    rewrite H, (Hstep x acc st a s (or_introl eq_refl) Hb).
    unfold list_sum. cbn [map fold_right]. lia.
Qed.

End MonadFacts.

Section ChunkFacts.

Import Staged.

Lemma firstn_plus {A} (a b : nat) (l : list A) :
  firstn (a + b) l = (firstn a l ++ firstn b (skipn a l))%list.
Proof.
  revert l. induction a as [|a IH]; intros l; [reflexivity|].
  destruct l as [|x l]; cbn [Nat.add firstn skipn app].
  - now rewrite firstn_nil.
  - now rewrite IH.
Qed.

Lemma skipn_plus {A} (a b : nat) (l : list A) :
  skipn (a + b) l = skipn b (skipn a l).
Proof.
  revert l. induction a as [|a IH]; intros l; [reflexivity|].
  destruct l as [|x l]; cbn [Nat.add skipn].
  - now rewrite skipn_nil.
  - apply IH.
Qed.

(** The batches at the indices of the loop, one after the other, are a
    part of the list. *)
Lemma concat_batches (l : list string) (count start : nat) :
  concat (map (batch_at l) (range5 count start))
  = firstn (5 * count) (skipn start l).
Proof.
  revert start. induction count as [|count IH]; intros start.
  - reflexivity.
  - cbn [range5 map concat]. rewrite IH.
    replace (5 * S count) with (5 + 5 * count) by lia.
    rewrite firstn_plus. unfold batch_at. f_equal. f_equal.
    apply skipn_plus.
Qed.

Lemma concat_all_batches (l : list string) :
  concat (map (batch_at l) (range_step5 (List.length l))) = l.
Proof.
  unfold range_step5. rewrite concat_batches. cbn [skipn].
  apply firstn_all2.
  pose proof (Nat.div_mod_eq (List.length l + 4) 5).
  pose proof (Nat.mod_upper_bound (List.length l + 4) 5). lia.
Qed.

Lemma range5_index (count start i : nat) :
  In i (range5 count start) -> exists k, k < count /\ i = start + 5 * k.
Proof.
  revert start. induction count as [|count IH]; intros start; [intros []|].
  cbn [range5]. intros [<-|H].
  - exists 0. lia.
  - apply IH in H as (k & Hk & ->). exists (S k). lia.
Qed.

(** Every index of the loop is inside the list. *)
Lemma range_step5_bound (n i : nat) : In i (range_step5 n) -> i < n.
Proof.
  unfold range_step5. intros H. apply range5_index in H as (k & Hk & ->).
  pose proof (Nat.div_mod_eq (n + 4) 5).
  pose proof (Nat.mod_upper_bound (n + 4) 5). lia.
Qed.

Lemma range5_length (count start : nat) :
  List.length (range5 count start) = count.
Proof.
  revert start. induction count as [|count IH]; intros start; [reflexivity|].
  cbn [range5 List.length]. now rewrite IH.
Qed.

(** A batch at an index of the loop has one to five paths. *)
Lemma batch_at_length (l : list string) (i : nat) :
  i < List.length l ->
  1 <= List.length (batch_at l i) <= 5.
Proof.
  intros H. unfold batch_at. rewrite length_firstn, length_skipn. lia.
Qed.

Lemma range5_removelast (count start i : nat) :
  In i (removelast (range5 count start)) ->
  exists k, S k < count /\ i = start + 5 * k.
Proof.
  revert start. induction count as [|count IH]; intros start; [intros []|].
  cbn [range5]. destruct count as [|count]; [intros []|].
  change (removelast (start :: range5 (S count) (start + 5)))
    with (start :: removelast (range5 (S count) (start + 5))).
  intros [<-|H].
  - exists 0. lia.
  - apply IH in H as (k & Hk & ->). exists (S k). lia.
Qed.

(** Every batch but the last has five paths. *)
Lemma full_batches (l : list string) (i : nat) :
  In i (removelast (range_step5 (List.length l))) ->
  List.length (batch_at l i) = 5.
Proof.
  unfold range_step5. intros H.
  apply range5_removelast in H as (k & Hk & ->).
  pose proof (Nat.div_mod_eq (List.length l + 4) 5).
  pose proof (Nat.mod_upper_bound (List.length l + 4) 5).
  unfold batch_at. rewrite length_firstn, length_skipn. lia.
Qed.

Lemma removelast_map {X Y} (f : X -> Y) (xs : list X) :
  removelast (map f xs) = map f (removelast xs).
Proof.
  induction xs as [|x xs IH]; [reflexivity|].
  destruct xs as [|y xs]; [reflexivity|].
  change (removelast (map f (x :: y :: xs)))
    with (f x :: removelast (map f (y :: xs))).
  now rewrite IH.
Qed.

End ChunkFacts.

(* ================================================================== *)
(** ** Batch generation *)
(* ================================================================== *)

Section BatchFacts.

Import PyDict Json Staged.

Variable service : nat -> response.
Variable json_loads : string -> option json.

(** With one to five paths the function makes its one request. *)
Lemma generate_small_group (fuel : nat) (file_list : list string) (st : state) :
  1 <= List.length file_list <= 5 ->
  _generate_file_group_rec service json_loads (S fuel) file_list st
  = generate_batch service json_loads file_list st.
Proof.
  intros H. cbn [_generate_file_group_rec].
  destruct file_list as [|p rest]; [cbn in H; lia|].
  destruct (Nat.ltb_spec 5 (List.length (p :: rest))); [lia|reflexivity].
Qed.

(** With more than five paths it is the loop over the batches. *)
Lemma generate_large_group (fuel : nat) (file_list : list string) (st : state) :
  5 < List.length file_list ->
  _generate_file_group_rec service json_loads (S fuel) file_list st
  = (results <-
       for_each (range_step5 (List.length file_list))
         (fun results i =>
            generated <-
              _generate_file_group_rec service json_loads fuel
                (batch_at file_list i) ;;
            dict_update results generated)
         [] ;;
     ret (JObject results)) st.
Proof.
  intros H. cbn [_generate_file_group_rec].
  destruct file_list as [|p rest]; [cbn in H; lia|].
  destruct (Nat.ltb_spec 5 (List.length (p :: rest))); [reflexivity|lia].
Qed.

End BatchFacts.


(* ================================================================== *)
(** ** Where the keys of a session come from *)
(* ================================================================== *)

Section SessionFacts.

Import PyDict Json Staged.

Variable service : nat -> response.
Variable json_loads : string -> option json.
Variable umask : Z.

Lemma call_claude_Returned (p : prompt) (st : state) (r : response)
      (st' : state) :
  _call_claude service p st = Returned r st' ->
  r = service (calls st) /\ calls st' = S (calls st).
Proof. unfold _call_claude. intros H. now inversion H. Qed.

Lemma generate_batch_spec (file_list : list string) (st : state)
      (generated : json) (st' : state) :
  generate_batch service json_loads file_list st = Returned generated st' ->
  calls st' = S (calls st)
  /\ bound_by_replies service json_loads (calls st) (calls st') generated.
Proof.
  unfold generate_batch. intros H.
  apply bind_Returned in H as (r & s & Hc & H).
  apply call_claude_Returned in Hc as [-> Hs].
  assert (Hst : s = st'
                /\ generated
                   = match json_loads
                             (unwrap_json (text (service (calls st)))) with
                     | Some files => files
                     | None => JObject []
                     end).
  { destruct (json_loads _); apply ret_Returned in H as [<- <-]; auto. }
  destruct Hst as [<- Hg]. split; [exact Hs|].
  intros bindings p Hb Hp. exists (calls st). split; [lia|].
  unfold batch_keys, reply_bindings. rewrite Hg in Hb.
  destruct (json_loads _).
  - now rewrite Hb.
  - cbn in Hb. inversion Hb; subst. destruct Hp.
Qed.

Lemma dict_update_Returned (d : dict json) (generated : json) (st : state)
      (d' : dict json) (st' : state) :
  dict_update d generated st = Returned d' st' ->
  exists bindings,
    update_bindings generated = Effect.Done bindings
    /\ d' = update d bindings /\ st' = st.
Proof.
  unfold dict_update, bind, attempt.
  destruct (update_bindings generated) as [bindings| |]; try discriminate.
  intros H. apply ret_Returned in H as [<- <-]. now exists bindings.
Qed.

Lemma keys_from_replies_weaken (lo hi hi' : nat) (files : dict json) :
  hi <= hi' ->
  keys_from_replies service json_loads lo hi files ->
  keys_from_replies service json_loads lo hi' files.
Proof.
  intros Hle H p Hp. destruct (H p Hp) as (n & Hn & Hk).
  exists n. split; [lia|exact Hk].
Qed.

(** One round of a loop that merges what a generation returns. *)
Lemma merge_round (lo : nat) (files : dict json) (st : state)
      (generated : json) (st1 : state) (files' : dict json) (st' : state) :
  lo <= calls st ->
  keys_from_replies service json_loads lo (calls st) files ->
  calls st <= calls st1 ->
  bound_by_replies service json_loads (calls st) (calls st1) generated ->
  dict_update files generated st1 = Returned files' st' ->
  calls st' = calls st1 /\ keys_from_replies service json_loads lo (calls st') files'.
Proof.
  intros Hlo Hfiles Hle Hgen Hup.
  apply dict_update_Returned in Hup as (bindings & Hb & -> & ->).
  split; [reflexivity|]. intros p Hp.
  apply keys_update in Hp as [Hp|Hp].
  - destruct (Hfiles p Hp) as (n & Hn & Hk). exists n. split; [lia|exact Hk].
  - destruct (Hgen bindings p Hb Hp) as (n & Hn & Hk).
    exists n. split; [lia|exact Hk].
Qed.

Lemma requests_of_small (file_list : list string) :
  1 <= List.length file_list <= 5 -> requests_of file_list = 1.
Proof.
  intros H. unfold requests_of.
  destruct file_list as [|p rest]; [cbn in H; lia|].
  destruct (Nat.ltb_spec 5 (List.length (p :: rest))); [lia|reflexivity].
Qed.

Lemma requests_of_large (file_list : list string) :
  5 < List.length file_list ->
  requests_of file_list = (List.length file_list + 4) / 5.
Proof.
  intros H. unfold requests_of.
  destruct file_list as [|p rest]; [cbn in H; lia|].
  destruct (Nat.ltb_spec 5 (List.length (p :: rest))); [reflexivity|lia].
Qed.

Lemma list_sum_ones {X} (xs : list X) :
  list_sum (map (fun _ => 1) xs) = List.length xs.
Proof.
  induction xs as [|x xs IH]; [reflexivity|].
  cbn [map List.length]. change (list_sum (1 :: map (fun _ => 1) xs))
    with (1 + list_sum (map (fun _ => 1) xs)). now rewrite IH.
Qed.

(** What [_generate_file_group] returns: the number of its requests and
    where its bindings come from. *)
Lemma generate_file_group_spec (fuel : nat) (file_list : list string)
      (st : state) (generated : json) (st' : state) :
  _generate_file_group_rec service json_loads fuel file_list st
  = Returned generated st' ->
  calls st' = calls st + requests_of file_list
  /\ bound_by_replies service json_loads (calls st) (calls st') generated.
Proof.
  revert file_list st generated st'.
  induction fuel as [|fuel IH]; intros file_list st generated st' H;
    [discriminate H|].
  destruct (Nat.eq_dec (List.length file_list) 0) as [Hnil|Hne].
  - apply length_zero_iff_nil in Hnil. subst file_list.
    apply ret_Returned in H as [<- <-]. split; [cbn; lia|].
    intros bindings q Hb Hq. cbn in Hb. inversion Hb; subst. destruct Hq.
  - destruct (Nat.ltb_spec 5 (List.length file_list)) as [Hlen|Hlen].
    + rewrite generate_large_group in H by exact Hlen.
      apply bind_Returned in H as (results & s & Hloop & H).
      apply ret_Returned in H as [<- <-].
      assert (Hround : forall i a s0 a' s',
                 In i (range_step5 (List.length file_list)) ->
                 (generated <-
                    _generate_file_group_rec service json_loads fuel
                      (batch_at file_list i) ;;
                  dict_update a generated) s0 = Returned a' s' ->
                 calls s' = calls s0 + 1
                 /\ (calls st <= calls s0 ->
                     keys_from_replies service json_loads
                                       (calls st) (calls s0) a ->
                     keys_from_replies service json_loads
                                       (calls st) (calls s') a')).
      { intros i a s0 a' s' Hi Hb.
        apply bind_Returned in Hb as (g & s1 & Hg & Hup).
        apply IH in Hg as [Hcalls Hbound].
        rewrite requests_of_small in Hcalls
          by (apply batch_at_length; now apply range_step5_bound).
        split.
        - apply dict_update_Returned in Hup as (? & _ & _ & ->). exact Hcalls.
        - intros Hlo Ha.
          apply (merge_round (calls st) a s0 g s1 a' s' Hlo Ha);
            [lia|exact Hbound|exact Hup]. }
      split.
      * rewrite (for_each_calls (fun _ => 1) _ _
                   (fun i a s0 a' s' Hi Hb => proj1 (Hround i a s0 a' s' Hi Hb))
                   _ _ _ _ Hloop).
        rewrite list_sum_ones, requests_of_large by exact Hlen.
        unfold range_step5. now rewrite range5_length.
      * assert (Hkeys : calls st <= calls s
                        /\ keys_from_replies service json_loads
                                             (calls st) (calls s) results).
        { refine (for_each_invariant
                    (fun a s0 =>
                       calls st <= calls s0
                       /\ keys_from_replies service json_loads
                                            (calls st) (calls s0) a)
                    _ _ _ [] st results s _ Hloop).
          - intros i a s0 a' s' Hi [Hlo Ha] Hb.
            destruct (Hround i a s0 a' s' Hi Hb) as [Hc Hk].
            split; [lia|now apply Hk].
          - split; [lia|]. intros p []. }
        intros bindings q Hb Hq. cbn in Hb. inversion Hb; subst.
        apply (proj2 Hkeys q Hq).
    + rewrite generate_small_group in H by lia.
      apply generate_batch_spec in H as [Hc Hb]. split; [|exact Hb].
      rewrite requests_of_small by lia. lia.
Qed.

End SessionFacts.

(* ================================================================== *)
(** ** The recursion bound; the merge of the chunks *)
(* ================================================================== *)

Section FuelFacts.

Import PyDict Json Staged.

Variable service : nat -> response.
Variable json_loads : string -> option json.

Lemma bind_not_out_of_fuel {A B} (m : M A) (k : A -> M B) (st : state) :
  m st <> OutOfFuel -> (forall a s, k a s <> OutOfFuel) ->
  bind m k st <> OutOfFuel.
Proof.
  unfold bind. intros Hm Hk. destruct (m st); try discriminate; auto.
Qed.

Lemma for_each_not_out_of_fuel {A X} (xs : list X) (body : A -> X -> M A)
      (acc : A) (st : state) :
  (forall x a s, In x xs -> body a x s <> OutOfFuel) ->
  for_each xs body acc st <> OutOfFuel.
Proof.
  revert acc st. induction xs as [|x xs IH]; intros acc st H; [discriminate|].
  cbn [for_each]. apply bind_not_out_of_fuel.
  - apply H. now left.
  - intros a s. apply IH. intros y a0 s0 Hy. apply H. now right.
Qed.

Lemma generate_batch_not_out_of_fuel (file_list : list string) (st : state) :
  generate_batch service json_loads file_list st <> OutOfFuel.
Proof.
  unfold generate_batch, bind, _call_claude.
  destruct (json_loads _); discriminate.
Qed.

Lemma dict_update_not_out_of_fuel (d : dict json) (other : json) (st : state) :
  dict_update d other st <> OutOfFuel.
Proof.
  unfold dict_update, bind, attempt.
  destruct (update_bindings other); discriminate.
Qed.

(** The recursion bound of [_generate_file_group] is never reached: two
    levels are enough for every list. *)
Lemma generate_file_group_not_out_of_fuel (file_list : list string)
      (st : state) :
  _generate_file_group service json_loads file_list st <> OutOfFuel.
Proof.
  unfold _generate_file_group.
  destruct (Nat.eq_dec (List.length file_list) 0) as [Hnil|Hne].
  - apply length_zero_iff_nil in Hnil. subst. discriminate.
  - destruct (Nat.ltb_spec 5 (List.length file_list)) as [Hlen|Hlen].
    + rewrite generate_large_group by exact Hlen.
      apply bind_not_out_of_fuel; [|discriminate].
      apply for_each_not_out_of_fuel. intros i a s Hi.
      apply bind_not_out_of_fuel; [|intros; apply dict_update_not_out_of_fuel].
      rewrite generate_small_group
        by (apply batch_at_length; now apply range_step5_bound).
      apply generate_batch_not_out_of_fuel.
    + rewrite generate_small_group by lia.
      apply generate_batch_not_out_of_fuel.
Qed.

(** More fuel changes nothing. *)
Lemma generate_file_group_more_fuel (fuel : nat) (file_list : list string)
      (st : state) :
  _generate_file_group_rec service json_loads (S (S fuel)) file_list st
  = _generate_file_group service json_loads file_list st.
Proof.
  unfold _generate_file_group.
  destruct (Nat.eq_dec (List.length file_list) 0) as [Hnil|Hne].
  - apply length_zero_iff_nil in Hnil. now subst.
  - destruct (Nat.ltb_spec 5 (List.length file_list)) as [Hlen|Hlen].
    + rewrite !generate_large_group by exact Hlen.
      unfold bind at 1 3.
      rewrite for_each_ext with
        (body2 := fun results i =>
                    generated <-
                      _generate_file_group_rec service json_loads 1
                        (batch_at file_list i) ;;
                    dict_update results generated); [reflexivity|].
      intros i a s Hi. unfold bind.
      rewrite !generate_small_group
        by (apply batch_at_length; now apply range_step5_bound).
      reflexivity.
    + now rewrite !generate_small_group by lia.
Qed.

(** A session of [generate_system] never ends on the recursion bound. *)
Lemma generate_system_not_out_of_fuel (umask : Z) (spec output_dir : string)
      (st : state) :
  generate_system service json_loads umask spec output_dir st <> OutOfFuel.
Proof.
  unfold generate_system.
  apply bind_not_out_of_fuel.
  { unfold _generate_manifest, bind, _call_claude.
    destruct (json_loads _); discriminate. }
  intros manifest s1. apply bind_not_out_of_fuel.
  { unfold try_or_raise. destruct (manifest_paths manifest); discriminate. }
  intros paths s2. apply bind_not_out_of_fuel.
  { apply for_each_not_out_of_fuel. intros g a s _.
    apply bind_not_out_of_fuel;
      [apply generate_file_group_not_out_of_fuel
      |intros; apply dict_update_not_out_of_fuel]. }
  intros files s3. apply bind_not_out_of_fuel.
  { apply for_each_not_out_of_fuel. intros p a s _.
    apply bind_not_out_of_fuel.
    - unfold _generate_single_file, bind, _call_claude. discriminate.
    - intros content s'. destruct (PyStr.truthy content); discriminate. }
  intros files' s4. apply bind_not_out_of_fuel.
  { unfold _write_files. apply bind_not_out_of_fuel.
    - unfold attempt, ret, raise.
      destruct (Disk.make_output_dir _ _); discriminate.
    - intros ? s. apply for_each_not_out_of_fuel. intros kv acc s0 _.
      unfold write_file. destruct (snd kv); try discriminate.
      destruct (Disk.write_under _ _ _ _ _); discriminate. }
  intros ? s5. apply bind_not_out_of_fuel; [discriminate|].
  intros ? s6. apply bind_not_out_of_fuel; [|discriminate].
  destruct (_ <? _)%nat; discriminate.
Qed.

End FuelFacts.

Section MergeFacts.

Import PyDict Json Staged.

Variable service : nat -> response.
Variable json_loads : string -> option json.

(** What the chunks of a batch generation merge to: the bindings of the
    replies to its requests, one request per chunk, taken in order; the
    prompt of each request names the paths of its chunk. *)
Lemma merge_loop_result (chunks : list (list string))
      (results : dict json) (st : state) (results' : dict json) (st' : state) :
  for_each chunks
    (fun results chunk =>
       generated <- generate_batch service json_loads chunk ;;
       dict_update results generated)
    results st = Returned results' st' ->
  results'
  = update results
      (flat_map (fun n => reply_bindings json_loads (service n))
                (seq (calls st) (List.length chunks)))
  /\ calls st' = calls st + List.length chunks
  /\ prompts st' = (prompts st ++ map GroupPrompt chunks)%list.
Proof.
  revert results st. induction chunks as [|chunk chunks IH]; intros results st H.
  - apply ret_Returned in H as [<- <-].
    split; [reflexivity|]. split; [cbn; lia|]. cbn [map].
    now rewrite app_nil_r.
  - cbn [for_each] in H. apply bind_Returned in H as (r1 & s1 & Hround & H).
    apply bind_Returned in Hround as (g & s0 & Hg & Hup).
    apply dict_update_Returned in Hup as (b & Hb & -> & ->).
    assert (Hreply : calls s0 = S (calls st)
                     /\ prompts s0 = (prompts st ++ [GroupPrompt chunk])%list
                     /\ reply_bindings json_loads (service (calls st)) = b).
    { unfold generate_batch, bind, _call_claude in Hg.
      unfold reply_bindings.
      destruct (json_loads _) as [g'|]; apply ret_Returned in Hg as [<- <-].
      - now rewrite Hb.
      - cbn in Hb. now inversion Hb. }
    destruct Hreply as (Hc & Hp & Hr).
    apply IH in H as (-> & Hcalls & Hprompts).
    split; [|split; [cbn [List.length]; lia|]].
    + cbn [List.length seq flat_map]. rewrite Hr, Hc.
      unfold update. now rewrite fold_left_app.
    + rewrite Hprompts, Hp. cbn [map]. now rewrite <- app_assoc.
Qed.

End MergeFacts.

Section BatchClaims.

Import PyDict Json Staged.

Variable service : nat -> response.
Variable json_loads : string -> option json.

(** C4: for a list of more than five paths, batch generation is the
    generation of consecutive chunks of one to five paths, five in every
    chunk but the last, each by a request of its own, merged by path.
    When it returns, it has made one request per chunk, the prompts it
    sent name the paths of the chunks, one chunk each and in order, and
    the value of a path in the result is the value the last reply that
    binds the path gives it. *)
Theorem large_group_is_chunked
        (file_list : list string) (st : state) :
  5 < List.length file_list ->
  exists chunks,
    concat chunks = file_list
    /\ Forall (fun chunk => 1 <= List.length chunk <= 5) chunks
    /\ Forall (fun chunk => List.length chunk = 5) (removelast chunks)
    /\ _generate_file_group service json_loads file_list st
       = generate_chunks service json_loads chunks st
    /\ (forall generated st',
           _generate_file_group service json_loads file_list st
           = Returned generated st' ->
           calls st' = calls st + List.length chunks
           /\ prompts st' = (prompts st ++ map GroupPrompt chunks)%list
           /\ exists results,
               generated = JObject results
               /\ forall k,
                   get results k
                   = Doc.last_binding
                       (flat_map
                          (fun n => reply_bindings json_loads (service n))
                          (seq (calls st) (List.length chunks))) k).
Proof.
  intros Hlen.
  exists (map (batch_at file_list) (range_step5 (List.length file_list))).
  assert (Heq : _generate_file_group service json_loads file_list st
                = generate_chunks service json_loads
                    (map (batch_at file_list)
                         (range_step5 (List.length file_list))) st).
  { unfold _generate_file_group, generate_chunks.
    rewrite generate_large_group by exact Hlen.
    unfold bind at 1 3. rewrite for_each_map.
    rewrite for_each_ext with
      (body2 := fun results i =>
                  generated <- generate_batch service json_loads
                                 (batch_at file_list i) ;;
                  dict_update results generated); [reflexivity|].
    intros i results s Hi. unfold bind.
    rewrite generate_small_group; [reflexivity|].
    apply batch_at_length. now apply range_step5_bound. }
  split; [apply concat_all_batches|]. split; [|split; [|split]].
  - apply Forall_forall. intros chunk Hin.
    apply in_map_iff in Hin as (i & <- & Hi).
    apply batch_at_length. now apply range_step5_bound.
  - rewrite removelast_map. apply Forall_forall. intros chunk Hin.
    apply in_map_iff in Hin as (i & <- & Hi). now apply full_batches.
  - exact Heq.
  - intros generated st' H. rewrite Heq in H. unfold generate_chunks in H.
    apply bind_Returned in H as (results & s & Hloop & H).
    apply ret_Returned in H as [<- <-].
    apply merge_loop_result in Hloop as (-> & Hcalls & Hprompts).
    split; [exact Hcalls|]. split; [exact Hprompts|].
    eexists. split; [reflexivity|].
    intros k. rewrite get_update.
    now destruct (Doc.last_binding _ k).
Qed.

End BatchClaims.

Section BatchExample.

Import PyDict Json Staged Scenario.

(** The theorem on twelve paths: three chunks of five, five and two
    paths, each named by the prompt of its own request; the second
    reply's value of "f06" replaces the first's; the third reply does
    not decode and adds nothing. *)
Lemma large_group_is_chunked_example :
  exists chunks,
    concat chunks = twelve
    /\ Forall (fun chunk => 1 <= List.length chunk <= 5) chunks
    /\ Forall (fun chunk => List.length chunk = 5) (removelast chunks)
    /\ _generate_file_group (replies twelve_replies) json_loads twelve state0
       = generate_chunks (replies twelve_replies) json_loads chunks state0
    /\ _generate_file_group (replies twelve_replies) json_loads twelve state0
       = Returned (JObject [("f01", JString "a"); ("f06", JString "c")])
                  (mkstate 3 90 [] []
                     [GroupPrompt ["f01"; "f02"; "f03"; "f04"; "f05"];
                      GroupPrompt ["f06"; "f07"; "f08"; "f09"; "f10"];
                      GroupPrompt ["f11"; "f12"]])
    /\ [GroupPrompt ["f01"; "f02"; "f03"; "f04"; "f05"];
        GroupPrompt ["f06"; "f07"; "f08"; "f09"; "f10"];
        GroupPrompt ["f11"; "f12"]]
       = (prompts state0 ++ map GroupPrompt chunks)%list.
Proof.
  destruct (large_group_is_chunked (replies twelve_replies) json_loads
                                   twelve state0)
    as (chunks & Hc & Hl & Hf & Hg & Hr).
  - vm_compute. lia.
  - exists chunks. split; [exact Hc|]. split; [exact Hl|].
    split; [exact Hf|]. split; [exact Hg|]. split; [reflexivity|].
    exact (proj1 (proj2 (Hr _ _ eq_refl))).
Defined.

End BatchExample.

Section SessionClaims.

Import PyDict Json Staged.

Variable service : nat -> response.
Variable json_loads : string -> option json.
Variable umask : Z.





End SessionClaims.

Section SessionWitness.

Import PyDict Json Staged.


End SessionWitness.

(* ================================================================== *)
(** ** Replies that cannot be used *)
(* ================================================================== *)

Section FailureFacts.

Import PyDict Json Staged.

Variable service : nat -> response.
Variable json_loads : string -> option json.

(** A batch reply that [json.loads] rejects gives the empty dictionary,
    and merging it changes nothing. *)
Lemma undecodable_reply_gives_empty
      (file_list : list string) (files : dict json) (st : state) :
  json_loads (unwrap_json (text (service (calls st)))) = None ->
  exists st',
    generate_batch service json_loads file_list st
    = Returned (JObject []) st'
    /\ calls st' = S (calls st)
    /\ dict_update files (JObject []) st' = Returned files st'.
Proof.
  intros H. unfold generate_batch, bind, _call_claude. rewrite H.
  eexists. split; [reflexivity|]. split; reflexivity.
Qed.

(** The round of gap filling for one path never raises; when the reply
    has no content left the dictionary stays as it was. *)
Lemma gap_round_returns (files : dict json) (filepath : string) (st : state) :
  exists files' st',
    (content <- _generate_single_file service filepath files ;;
     if PyStr.truthy content
     then ret (set files filepath (JString content))
     else ret files) st = Returned files' st'
    /\ (strip_fences (text (service (calls st))) = EmptyString ->
        files' = files).
Proof.
  unfold _generate_single_file, _call_claude, bind, ret.
  destruct (strip_fences (text (service (calls st)))) eqn:E;
    cbn [PyStr.truthy]; eexists; eexists; (split; [reflexivity|]).
  - reflexivity.
  - discriminate.
Qed.

(** Gap filling as a whole never raises. *)
Lemma gap_phase_returns (missing : list string) (files : dict json)
      (st : state) :
  exists files' st',
    for_each missing
      (fun files filepath =>
         content <- _generate_single_file service filepath files ;;
         if PyStr.truthy content
         then ret (set files filepath (JString content))
         else ret files)
      files st = Returned files' st'.
Proof.
  revert files st. induction missing as [|p missing IH]; intros files st.
  - now exists files, st.
  - destruct (gap_round_returns files p st) as (files1 & st1 & H1 & _).
    destruct (IH files1 st1) as (files2 & st2 & H2).
    exists files2, st2. cbn [for_each]. unfold bind at 1.
    now rewrite H1.
Qed.

End FailureFacts.

(* ================================================================== *)
(** ** Sessions of the staged generator on the example replies *)
(* ================================================================== *)

Section SessionExamples.

Import PyDict Json Staged Scenario.


(** C5 at its failing input: the manifest is ["a.py"] and the batch reply
    is the text 42. It decodes, so [_generate_file_group] returns the
    number, not the empty dictionary, and [files.update] raises: the
    session ends in an exception before gap filling. *)
Theorem number_reply_aborts_session (umask : Z) (spec output_dir : string) :
  _generate_file_group (replies [manifest_a; "42"]) json_loads ["a.py"]
                       (mkstate 1 30 [] [] [ManifestPrompt])
  = Returned (JNumber "42")
             (mkstate 2 60 [] [] [ManifestPrompt; GroupPrompt ["a.py"]])
  /\ generate_system (replies [manifest_a; "42"]) json_loads umask
                     spec output_dir state0
     = Raised.
Proof. split; reflexivity. Qed.

(** C6 at its failing input: the manifest is ["a.py"], the batch reply
    binds only "b.py", and the reply of gap filling for "a.py" is an
    empty fence pair. The session returns; "a.py" is not in the result;
    the report is the line [Files generated: 1/1] and no warning. *)
Theorem unresolved_path_not_reported (umask : Z) (spec : string) :
  generate_system (replies [manifest_a; reply_other; empty_fence])
                  json_loads umask spec "out" state0
  = Returned [("b.py", JString "y")]
      (mkstate 3 90
         [("out/b.py", Disk.mkfile "y" (Disk.creation_mode umask))]
         [Summary 1 1]
         [ManifestPrompt; GroupPrompt ["a.py"]; FilePrompt "a.py" ["b.py"]])
  /\ contains [("b.py", JString "y")] "a.py" = false.
Proof. split; reflexivity. Qed.

End SessionExamples.

(* ================================================================== *)
(** ** [_group_files]: the groups as a partition of the manifest *)
(* ================================================================== *)

Section GroupingCoverage.

Import PyDict Grouping Aux.

Lemma group_of_cases (p : string) :
  In (group_of p) group_names.
Proof.
  unfold group_of, group_names.
  destruct (PyStr.contains "docker-compose" p); [simpl; auto|].
  destruct (PyStr.contains "publisher" p); [simpl; auto|].
  destruct (PyStr.contains "consumer" p); [simpl; auto|].
  destruct (PyStr.contains "monitor" p); simpl; auto 6.
Qed.

Lemma append_to_five (a b c d e : list string) (p : string) :
  append_to (five a b c d e) (group_of p) p
  = five (a ++ members_of "infrastructure" [p])
         (b ++ members_of "publishers" [p])
         (c ++ members_of "consumers" [p])
         (d ++ members_of "monitor" [p])
         (e ++ members_of "config" [p]).
Proof.
  unfold members_of. cbn [filter].
  pose proof (group_of_cases p) as H. unfold group_names in H. simpl in H.
  destruct H as [H|[H|[H|[H|[H|[]]]]]]; rewrite <- H;
    unfold five; cbn; now rewrite ?app_nil_r.
Qed.

Lemma members_of_app (g : string) (l1 l2 : list string) :
  members_of g (l1 ++ l2) = (members_of g l1 ++ members_of g l2)%list.
Proof. unfold members_of. apply filter_app. Qed.

Lemma fold_groups (manifest : list string) (a b c d e : list string) :
  fold_left (fun g filepath => append_to g (group_of filepath) filepath)
            manifest (five a b c d e)
  = five (a ++ members_of "infrastructure" manifest)
         (b ++ members_of "publishers" manifest)
         (c ++ members_of "consumers" manifest)
         (d ++ members_of "monitor" manifest)
         (e ++ members_of "config" manifest).
Proof.
  revert a b c d e. induction manifest as [|p manifest IH]; intros a b c d e.
  - cbn. now rewrite !app_nil_r.
  - cbn [fold_left]. rewrite append_to_five, IH.
    change (p :: manifest) with ([p] ++ manifest)%list.
    now rewrite !members_of_app, !app_assoc.
Qed.

(** The result of the grouping step, group by group. *)
Lemma group_files_filter (manifest : list string) :
  _group_files manifest
  = filter (fun kv => match snd kv with [] => false | _ => true end)
           (map (fun name => (name, members_of name manifest)) group_names).
Proof.
  unfold _group_files.
  change groups0 with (five [] [] [] [] []).
  now rewrite fold_groups.
Qed.

(** The grouping step is a partition of the manifest: each group that
    is not empty is listed once, in the fixed order of the five names,
    with the paths that go to it in manifest order. *)
Theorem group_files_partition (manifest : list string) :
  _group_files manifest
  = filter (fun kv => match snd kv with [] => false | _ => true end)
           (map (fun name => (name, members_of name manifest)) group_names).
Proof. apply group_files_filter. Qed.

End GroupingCoverage.

Section GroupingMembership.

Import PyDict Grouping Aux.

Lemma grouped_count_cons (group : string * list string)
      (groups : dict (list string)) :
  grouped_count (group :: groups)
  = List.length (snd group) + grouped_count groups.
Proof. reflexivity. Qed.

Lemma grouped_count_filter (groups : dict (list string)) :
  grouped_count (filter has_members groups) = grouped_count groups.
Proof.
  induction groups as [|[g ms] groups IH]; [reflexivity|].
  cbn [filter]. unfold has_members at 1. cbn [snd].
  destruct ms as [|m ms]; rewrite ?grouped_count_cons, IH; reflexivity.
Qed.

Lemma members_count (manifest : list string) :
  grouped_count (map (fun name => (name, members_of name manifest)) group_names)
  = List.length manifest.
Proof.
  unfold grouped_count, group_names. cbn [map snd list_sum fold_right].
  induction manifest as [|p manifest IH]; [reflexivity|].
  unfold members_of in *. cbn [filter List.length].
  pose proof (group_of_cases p) as H. unfold group_names in H. simpl in H.
  destruct H as [H|[H|[H|[H|[H|[]]]]]]; rewrite <- H;
    cbn [String.eqb Ascii.eqb Bool.eqb List.length]; lia.
Qed.

(** Every path of the manifest is in one group and one only: a group of
    the result holds exactly the manifest paths that the chain of tests
    sends to its name, no group is empty, the group of every manifest path
    is in the result, and the groups together hold as many paths as the
    manifest (a path listed twice is kept twice). *)
Theorem group_files_exactly_once (manifest : list string) :
  (forall name members,
      In (name, members) (_group_files manifest) ->
      members <> []
      /\ forall p, In p members <-> In p manifest /\ group_of p = name)
  /\ (forall p, In p manifest ->
                exists members,
                  In (group_of p, members) (_group_files manifest))
  /\ grouped_count (_group_files manifest) = List.length manifest.
Proof.
  rewrite group_files_filter.
  change (fun kv : string * list string =>
            match snd kv with [] => false | _ => true end) with has_members.
  split; [|split].
  - intros name members H. apply filter_In in H as [H Hne].
    apply in_map_iff in H as (g & Hg & _). inversion Hg; subst. split.
    + unfold has_members in Hne. cbn [snd] in Hne. intros E.
      rewrite E in Hne. discriminate.
    + intros p. unfold members_of. rewrite filter_In, String.eqb_eq. tauto.
  - intros p Hp. exists (members_of (group_of p) manifest).
    apply filter_In. split.
    + apply in_map_iff. exists (group_of p). split; [reflexivity|].
      apply group_of_cases.
    + unfold has_members. cbn [snd].
      assert (Hin : In p (members_of (group_of p) manifest)).
      { unfold members_of. apply filter_In. split; [exact Hp|].
        apply String.eqb_refl. }
      destruct (members_of (group_of p) manifest); [destruct Hin|reflexivity].
  - rewrite grouped_count_filter. apply members_count.
Qed.

End GroupingMembership.

(* ================================================================== *)
(** ** Requests and tokens of batch generation *)
(* ================================================================== *)

Section Accounting.

Import PyDict Json Staged Aux.

Variable service : nat -> response.
Variable json_loads : string -> option json.

Lemma usage_from_plus (lo a b : nat) :
  usage_from service lo (a + b)
  = (usage_from service lo a + usage_from service (lo + a) b)%Z.
Proof.
  revert lo. induction a as [|a IH]; intros lo.
  - cbn. now rewrite Nat.add_0_r.
  - cbn [Nat.add usage_from]. rewrite IH.
    replace (S lo + a) with (lo + S a) by lia. lia.
Qed.

Lemma accounted_refl (st : state) : accounted service st st.
Proof. exists 0. cbn. split; lia. Qed.

Lemma accounted_trans (st1 st2 st3 : state) :
  accounted service st1 st2 -> accounted service st2 st3 ->
  accounted service st1 st3.
Proof.
  intros (a & Ha & Ta) (b & Hb & Tb). exists (a + b). split; [lia|].
  rewrite usage_from_plus, Tb, Ta, Ha. lia.
Qed.

Lemma call_claude_accounted (p : prompt) (st : state) (r : response)
      (st' : state) :
  _call_claude service p st = Returned r st' ->
  accounted service st st' /\ same_world st st'.
Proof.
  unfold _call_claude. intros H. inversion H; subst; clear H.
  split; [|split; reflexivity].
  exists 1. cbn [calls total_tokens usage_from]. unfold usage. split; lia.
Qed.

Lemma generate_batch_accounted (file_list : list string) (st : state)
      (generated : json) (st' : state) :
  generate_batch service json_loads file_list st = Returned generated st' ->
  accounted service st st' /\ same_world st st'.
Proof.
  unfold generate_batch. intros H.
  apply bind_Returned in H as (r & s & Hc & H).
  apply call_claude_accounted in Hc.
  destruct (json_loads _); apply ret_Returned in H as [_ <-]; exact Hc.
Qed.

Lemma same_world_trans (st1 st2 st3 : state) :
  same_world st1 st2 -> same_world st2 st3 -> same_world st1 st3.
Proof. unfold same_world. intros [] []. split; congruence. Qed.

(** A loop whose rounds only make requests only makes requests. *)
Lemma for_each_accounted {A X} (xs : list X) (body : A -> X -> M A) :
  (forall x a s a' s',
      In x xs -> body a x s = Returned a' s' ->
      accounted service s s' /\ same_world s s') ->
  forall acc st acc' st',
    for_each xs body acc st = Returned acc' st' ->
    accounted service st st' /\ same_world st st'.
Proof.
  intros Hstep acc st acc' st' H.
  refine (for_each_invariant
            (fun _ s => accounted service st s /\ same_world st s)
            xs body _ acc st acc' st' _ H).
  - intros x a s a' s' Hx [Ha Hw] Hb.
    destruct (Hstep x a s a' s' Hx Hb) as [Ha' Hw'].
    split; [eapply accounted_trans|eapply same_world_trans]; eauto.
  - split; [apply accounted_refl|split; reflexivity].
Qed.

Lemma generate_file_group_accounted (fuel : nat) (file_list : list string)
      (st : state) (generated : json) (st' : state) :
  _generate_file_group_rec service json_loads fuel file_list st
  = Returned generated st' ->
  accounted service st st' /\ same_world st st'.
Proof.
  revert file_list st generated st'.
  induction fuel as [|fuel IH]; intros file_list st generated st' H;
    [discriminate H|].
  destruct (Nat.eq_dec (List.length file_list) 0) as [Hnil|Hne].
  - apply length_zero_iff_nil in Hnil. subst file_list.
    apply ret_Returned in H as [_ <-].
    split; [apply accounted_refl|split; reflexivity].
  - destruct (Nat.ltb_spec 5 (List.length file_list)) as [Hlen|Hlen].
    + rewrite generate_large_group in H by exact Hlen.
      apply bind_Returned in H as (results & s & Hloop & H).
      apply ret_Returned in H as [_ <-].
      apply for_each_accounted in Hloop; [exact Hloop|].
      intros i a s0 a' s' _ Hb.
      apply bind_Returned in Hb as (g & s1 & Hg & Hup).
      apply dict_update_Returned in Hup as (? & _ & _ & ->).
      now apply IH in Hg.
    + rewrite generate_small_group in H by lia.
      now apply generate_batch_accounted in H.
Qed.

(** The requests of batch generation: a list of [n] paths costs the
    whole part of [(n + 4) / 5] requests, none for the empty list and one
    for up to five paths; a list of up to five paths always returns; and
    batch generation touches neither the destination nor the report, and
    adds to [total_tokens] what its requests were charged. *)
Theorem batch_generation_requests (file_list : list string) (st : state) :
  (List.length file_list <= 5 ->
   exists generated st',
     _generate_file_group service json_loads file_list st
     = Returned generated st')
  /\ (forall generated st',
         _generate_file_group service json_loads file_list st
         = Returned generated st' ->
         calls st' = calls st + (List.length file_list + 4) / 5
         /\ total_tokens st'
            = (total_tokens st
               + usage_from service (calls st)
                            ((List.length file_list + 4) / 5))%Z
         /\ disk st' = disk st /\ stdout st' = stdout st).
Proof.
  split.
  - intros Hlen. unfold _generate_file_group.
    destruct file_list as [|p rest] eqn:E.
    + now exists (JObject []), st.
    + rewrite <- E in *. rewrite generate_small_group
        by (subst; cbn [List.length] in *; lia).
      unfold generate_batch, bind, _call_claude.
      destruct (json_loads _); eexists; eexists; reflexivity.
  - intros generated st' H. unfold _generate_file_group in H.
    pose proof (generate_file_group_spec _ _ _ _ _ _ _ H) as [Hc _].
    apply generate_file_group_accounted in H as [(count & Hn & Ht) [Hd Ho]].
    assert (Hreq : requests_of file_list = (List.length file_list + 4) / 5).
    { destruct (Nat.eq_dec (List.length file_list) 0) as [Hnil|Hne].
      - apply length_zero_iff_nil in Hnil. now subst.
      - destruct (Nat.ltb_spec 5 (List.length file_list)).
        + now apply requests_of_large.
        + rewrite requests_of_small by lia.
          apply Nat.div_unique with (r := List.length file_list - 1); lia. }
    rewrite Hreq in Hc. assert (count = (List.length file_list + 4) / 5) by lia.
    subst count. auto.
Qed.

End Accounting.

(* ================================================================== *)
(** ** The phases of a session *)
(* ================================================================== *)

Section SessionPhases.

Import PyDict Json Staged Aux.

Variable service : nat -> response.
Variable json_loads : string -> option json.
Variable umask : Z.





End SessionPhases.

(* ================================================================== *)
(** ** The writer of [ImprovedMultiAgentGenerator] *)
(* ================================================================== *)

Section DiskFacts.

Import PyDict Json Aux.

Lemma read_write_text (umask : Z) (d : Disk.disk) (path text q : string) :
  read_text (Disk.write_text umask d path text) q
  = if path =? q then Some text else read_text d q.
Proof.
  unfold read_text, Disk.write_text.
  destruct (String.eqb_spec path q) as [->|Hne].
  - destruct (get d q); now rewrite get_set_same.
  - destruct (get d path); now rewrite get_set_other.
Qed.

Lemma read_chmod (d : Disk.disk) (path : string) (bits : Z) (q : string) :
  read_text (Disk.chmod d path bits) q = read_text d q.
Proof.
  unfold read_text, Disk.chmod. destruct (get d path) as [f|] eqn:E; [|reflexivity].
  destruct (String.eqb_spec path q) as [->|Hne].
  - now rewrite get_set_same, E.
  - now rewrite get_set_other.
Qed.

Lemma get_write_text_other (umask : Z) (d : Disk.disk) (path text q : string) :
  path <> q -> get (Disk.write_text umask d path text) q = get d q.
Proof.
  intros Hne. unfold Disk.write_text.
  destruct (get d path); now rewrite get_set_other.
Qed.

Lemma get_chmod_other (d : Disk.disk) (path : string) (bits : Z) (q : string) :
  path <> q -> get (Disk.chmod d path bits) q = get d q.
Proof.
  intros Hne. unfold Disk.chmod.
  destruct (get d path); [now rewrite get_set_other|reflexivity].
Qed.

End DiskFacts.

Section WriteFacts.

Import PyDict Json Effect Aux.

Lemma get_write_text (umask : Z) (d : Disk.disk) (path text q : string) :
  get (Disk.write_text umask d path text) q
  = if path =? q then Some (Disk.mkfile text (bits_before umask d q))
    else get d q.
Proof.
  unfold Disk.write_text, bits_before.
  destruct (String.eqb_spec path q) as [->|Hne].
  - destruct (get d q); now rewrite get_set_same.
  - destruct (get d path); now rewrite get_set_other.
Qed.

Lemma bits_before_write_text (umask : Z) (d : Disk.disk)
      (path text q : string) :
  bits_before umask (Disk.write_text umask d path text) q
  = bits_before umask d q.
Proof.
  unfold bits_before at 1. rewrite get_write_text.
  destruct (path =? q); reflexivity.
Qed.

(** What a write that succeeds has checked and done. *)
Lemma write_under_Done (umask : Z) (output_dir : string) (d : Disk.disk)
      (filepath content : string) (d' : Disk.disk) :
  Disk.write_under umask output_dir d filepath content = Done d' ->
  d' = Disk.write_text umask d (Disk.path_join output_dir filepath) content
  /\ Disk.has_nul filepath = false
  /\ Disk.covered (Disk.joinpath (Disk.parse output_dir) filepath) = true
  /\ Disk.names filepath <> []
  /\ Disk.mkdir d (Disk.parts
                     (Disk.parent
                        (Disk.joinpath (Disk.parse output_dir) filepath)))
     = true
  /\ Disk.is_dir d (Disk.parts
                      (Disk.joinpath (Disk.parse output_dir) filepath))
     = false.
Proof.
  unfold Disk.write_under, Disk.path_join. intros H.
  destruct (Disk.has_nul filepath); [discriminate H|].
  destruct (Disk.covered _); [|discriminate H]. cbn [negb] in H.
  destruct (Disk.names filepath) eqn:En; [discriminate H|].
  destruct (Disk.mkdir d _); [|discriminate H]. cbn [negb] in H.
  destruct (Disk.is_dir d _); [discriminate H|].
  injection H as <-. repeat split. discriminate.
Qed.









End WriteFacts.

Section StagedWriter.

Import PyDict Json Staged Aux.

Variable umask : Z.

(** The loop of the writer of the staged generator, path by path. *)
Lemma staged_write_loop (output_dir : string) (files : dict json)
      (st : state) (u : unit) (st' : state) :
  for_each files (write_file umask output_dir) tt st = Returned u st' ->
  all_text files = true
  /\ calls st' = calls st /\ total_tokens st' = total_tokens st
  /\ stdout st' = stdout st /\ prompts st' = prompts st
  /\ forall q,
      get (disk st') q
      = match Doc.last_binding (written output_dir files) q with
        | Some text => Some (Disk.mkfile text (bits_before umask (disk st) q))
        | None => get (disk st) q
        end.
Proof.
  revert st. induction files as [|[k v] files IH]; intros st H.
  - apply ret_Returned in H as [_ <-]. repeat split; reflexivity.
  - cbn [for_each] in H. apply bind_Returned in H as (u1 & s1 & Hw & H).
    unfold write_file in Hw. cbn [snd fst] in Hw.
    destruct v as [| | |content| |]; try discriminate Hw.
    destruct (Disk.write_under umask output_dir (disk st) k content)
      as [d1| |] eqn:E; try discriminate Hw.
    inversion Hw; subst; clear Hw.
    apply write_under_Done in E as (-> & _).
    apply IH in H as (Hall & Hc & Ht & Ho & Hp & Hget).
    unfold with_disk in *. cbn [calls total_tokens stdout disk prompts] in *.
    split; [exact Hall|]. repeat (split; [assumption|]).
    intros q. rewrite Hget. unfold written. cbn [flat_map snd fst app].
    cbn [Doc.last_binding].
    rewrite bits_before_write_text, get_write_text.
    destruct (Doc.last_binding _ q); [reflexivity|].
    now destruct (Disk.path_join output_dir k =? q).
Qed.

(** The writer of the staged generator, when it returns. *)
Lemma staged_write_files_spec (files : dict json) (output_dir : string)
      (st : state) (u : unit) (st' : state) :
  _write_files umask files output_dir st = Returned u st' ->
  all_text files = true
  /\ calls st' = calls st /\ total_tokens st' = total_tokens st
  /\ stdout st' = stdout st /\ prompts st' = prompts st
  /\ forall q,
      get (disk st') q
      = match Doc.last_binding (written output_dir files) q with
        | Some text => Some (Disk.mkfile text (bits_before umask (disk st) q))
        | None => get (disk st) q
        end.
Proof.
  unfold _write_files. intros H.
  apply bind_Returned in H as (u0 & s0 & Hm & H).
  assert (s0 = st) as ->.
  { unfold attempt in Hm. destruct (Disk.make_output_dir _ _);
      try discriminate Hm. now apply ret_Returned in Hm as [_ ->]. }
  now apply staged_write_loop in H.
Qed.



(** The text law of the writer. *)
Lemma staged_write_files_read (files : dict json) (output_dir : string)
      (st : state) (u : unit) (st' : state) :
  _write_files umask files output_dir st = Returned u st' ->
  forall q,
    read_text (disk st') q
    = match Doc.last_binding (written output_dir files) q with
      | Some text => Some text
      | None => read_text (disk st) q
      end.
Proof.
  intros H q. apply staged_write_files_spec in H as (_ & _ & _ & _ & _ & H).
  unfold read_text. rewrite H. now destruct (Doc.last_binding _ q).
Qed.


End StagedWriter.

(* ================================================================== *)
(** ** A whole session: requests, files and report *)
(* ================================================================== *)

Section SessionCoverage.

Import PyDict Json Staged Aux.

Variable service : nat -> response.
Variable json_loads : string -> option json.
Variable umask : Z.



End SessionCoverage.

Section WrittenFacts.

Import PyDict Json Aux.

Lemma str_app_inv_head (a b c : string) : a ++ b = a ++ c -> b = c.
Proof. induction a as [|x a IH]; cbn; intros H; [exact H|]. inversion H. auto. Qed.






End WrittenFacts.

Section SessionResult.

Import PyDict Json Staged Aux.

Variable service : nat -> response.
Variable json_loads : string -> option json.
Variable umask : Z.





End SessionResult.

Section SessionReport.

Import PyDict Json Staged Aux.

Variable service : nat -> response.
Variable json_loads : string -> option json.
Variable umask : Z.

(** Phase 3 as one update: gap filling returns the dictionary it was
    given, updated with the binding of each missing path, in order, to
    the reply of its own request without the fence lines; a path whose
    reply is empty gets no binding. It makes one request for each
    missing path, whose prompt names the path and lists the first ten,
    in sorted order, of the paths bound so far, and touches neither the
    destination nor the report. *)
Theorem gap_filling_bindings (missing : list string) (files : dict json)
        (st : state) :
  for_each missing
    (fun files filepath =>
       content <- _generate_single_file service filepath files ;;
       if PyStr.truthy content
       then ret (set files filepath (JString content))
       else ret files)
    files st
  = Returned (update files (gap_bindings service (calls st) missing))
      (mkstate (calls st + List.length missing)
         (total_tokens st
          + usage_from service (calls st) (List.length missing))
         (disk st) (stdout st)
         (prompts st ++ gap_prompts service (calls st) files missing)).
Proof.
  revert files st. induction missing as [|p missing IH]; intros files st.
  - cbn [for_each gap_bindings gap_prompts List.length usage_from].
    unfold ret, update.
    cbn [fold_left]. rewrite Nat.add_0_r, Z.add_0_r, app_nil_r.
    now destruct st.
  - cbn [for_each]. unfold bind at 1.
    unfold _generate_single_file, _call_claude, bind, ret at 1.
    cbn [gap_bindings gap_prompts].
    set (content := strip_fences (text (service (calls st)))).
    set (st1 := mkstate (S (calls st))
                  (total_tokens st
                   + (input_tokens (service (calls st))
                      + output_tokens (service (calls st))))
                  (disk st) (stdout st)
                  (prompts st ++ [FilePrompt p (context_of files)])).
    assert (Hstate :
              forall files1,
              mkstate (calls st1 + List.length missing)
                (total_tokens st1
                 + usage_from service (calls st1) (List.length missing))
                (disk st1) (stdout st1)
                (prompts st1
                   ++ gap_prompts service (calls st1) files1 missing)
              = mkstate (calls st + List.length (p :: missing))
                  (total_tokens st
                   + usage_from service (calls st)
                                (List.length (p :: missing)))
                  (disk st) (stdout st)
                  (prompts st
                     ++ FilePrompt p (context_of files)
                     :: gap_prompts service (S (calls st)) files1 missing)).
    { intros files1. subst st1.
      cbn [calls total_tokens disk stdout prompts List.length usage_from].
      unfold usage. rewrite <- app_assoc. cbn [app]. f_equal; lia. }
    destruct (PyStr.truthy content).
    + unfold ret. rewrite IH, Hstate. reflexivity.
    + unfold ret. rewrite IH, Hstate. reflexivity.
Qed.


End SessionReport.

(* ================================================================== *)
(** ** How a session ends *)
(* ================================================================== *)

Section SessionEnds.

Import PyDict Json Staged Aux.

Variable service : nat -> response.
Variable json_loads : string -> option json.
Variable umask : Z.

Lemma bind_Exited {A B} (m : M A) (k : A -> M B) (st : state) (c : Z) :
  bind m k st = Exited c ->
  m st = Exited c \/ exists a s, m st = Returned a s /\ k a s = Exited c.
Proof.
  unfold bind. destruct (m st) as [a s|c'| | |]; intros H; try discriminate.
  - right. now exists a, s.
  - left. now inversion H.
Qed.

Lemma for_each_not_exited {A X} (xs : list X) (body : A -> X -> M A)
      (acc : A) (st : state) (c : Z) :
  (forall x a s, body a x s <> Exited c) ->
  for_each xs body acc st <> Exited c.
Proof.
  revert acc st. induction xs as [|x xs IH]; intros acc st Hb; [discriminate|].
  cbn [for_each]. intros H. apply bind_Exited in H as [H|(a & s & _ & H)].
  - exact (Hb _ _ _ H).
  - exact (IH _ _ Hb H).
Qed.

Lemma dict_update_not_exited (d : dict json) (other : json) (st : state)
      (c : Z) :
  dict_update d other st <> Exited c.
Proof.
  unfold dict_update, bind, attempt.
  destruct (update_bindings other); discriminate.
Qed.

Lemma generate_file_group_not_exited (fuel : nat) (file_list : list string)
      (st : state) (c : Z) :
  _generate_file_group_rec service json_loads fuel file_list st <> Exited c.
Proof.
  revert file_list st. induction fuel as [|fuel IH]; intros file_list st;
    [discriminate|].
  cbn [_generate_file_group_rec]. destruct file_list as [|p rest]; [discriminate|].
  destruct (5 <? List.length (p :: rest))%nat.
  - intros H. apply bind_Exited in H as [H|(a & s & _ & H)]; [|discriminate H].
    revert H. apply for_each_not_exited. intros i a s H.
    apply bind_Exited in H as [H|(g & s1 & _ & H)].
    + exact (IH _ _ H).
    + exact (dict_update_not_exited _ _ _ _ H).
  - unfold generate_batch, bind, _call_claude.
    destruct (json_loads _); discriminate.
Qed.

(** The only way a session ends by [sys.exit] is the manifest: the
    session exits, with status 1, exactly when [json.loads] rejects the
    text of the first reply once its fences are removed. *)
Theorem session_exits_iff_manifest_undecodable
        (spec output_dir : string) (st : state) (c : Z) :
  generate_system service json_loads umask spec output_dir st = Exited c
  <-> c = 1%Z
      /\ json_loads (manifest_text (text (service (calls st)))) = None.
Proof.
  unfold generate_system. split.
  - intros H. apply bind_Exited in H as [H|(manifest & s1 & _ & H)].
    + unfold _generate_manifest, bind, _call_claude in H.
      fold (manifest_text (text (service (calls st)))) in H.
      destruct (json_loads _); [discriminate H|].
      inversion H. auto.
    + exfalso.
      apply bind_Exited in H as [H|(paths & s2 & _ & H)].
      { unfold try_or_raise in H. destruct (manifest_paths manifest);
          discriminate H. }
      apply bind_Exited in H as [H|(files & s3 & _ & H)].
      { revert H. apply for_each_not_exited. intros g a s H.
        apply bind_Exited in H as [H|(g' & s' & _ & H)].
        - exact (generate_file_group_not_exited _ _ _ _ H).
        - exact (dict_update_not_exited _ _ _ _ H). }
      apply bind_Exited in H as [H|(files' & s4 & _ & H)].
      { revert H. apply for_each_not_exited. intros p a s H.
        apply bind_Exited in H as [H|(content & s' & _ & H)];
          [discriminate H|].
        destruct (PyStr.truthy content); discriminate H. }
      apply bind_Exited in H as [H|(u & s5 & _ & H)].
      { unfold _write_files in H.
        apply bind_Exited in H as [H|(u0 & s0 & _ & H)].
        - unfold attempt, ret, raise in H.
          destruct (Disk.make_output_dir _ _); discriminate H.
        - revert H. apply for_each_not_exited. intros kv acc s.
          unfold write_file. destruct (snd kv); try discriminate.
          destruct (Disk.write_under _ _ _ _ _); discriminate. }
      apply bind_Exited in H as [H|(u' & s6 & _ & H)]; [discriminate H|].
      apply bind_Exited in H as [H|(u'' & s7 & _ & H)]; [|discriminate H].
      destruct (_ <? _)%nat; discriminate H.
  - intros [-> Hnone].
    unfold bind at 1. unfold _generate_manifest, bind, _call_claude.
    fold (manifest_text (text (service (calls st)))).
    now rewrite Hnone.
Qed.

End SessionEnds.

Section SessionReturns.

Import PyDict Json Staged Aux.

Variable service : nat -> response.
Variable json_loads : string -> option json.
Variable umask : Z.









End SessionReturns.

(* ================================================================== *)
(** ** Fences around a reply *)
(* ================================================================== *)

Section FenceStripping.

Import Doc Generator Staged Aux.

Lemma startswith_app_l (a b s : string) :
  PyStr.startswith (a ++ b) s = true -> PyStr.startswith a s = true.
Proof.
  revert s. induction a as [|x a IH]; intros s H; [reflexivity|].
  destruct s as [|y s]; [discriminate H|].
  cbn [append PyStr.startswith] in *.
  apply andb_true_iff in H as [Hxy H]. now rewrite Hxy, (IH _ H).
Qed.

Lemma startswith_trans (a b s : string) :
  PyStr.startswith a b = true -> PyStr.startswith b s = true ->
  PyStr.startswith a s = true.
Proof.
  revert b s. induction a as [|x a IH]; intros b s Hab Hbs; [reflexivity|].
  destruct b as [|y b]; [discriminate Hab|].
  destruct s as [|z s]; [discriminate Hbs|].
  cbn [PyStr.startswith] in *.
  apply andb_true_iff in Hab as [Hxy Hab].
  apply andb_true_iff in Hbs as [Hyz Hbs].
  apply Ascii.eqb_eq in Hxy, Hyz. subst.
  now rewrite Ascii.eqb_refl, (IH _ _ Hab Hbs).
Qed.

Lemma contains_app_r (needle pre rest : string) :
  PyStr.startswith needle rest = true ->
  PyStr.contains needle (pre ++ rest) = true.
Proof.
  intros H. induction pre as [|c pre IH].
  - cbn [append]. destruct rest; cbn [PyStr.contains]; now rewrite H.
  - cbn [append PyStr.contains]. rewrite IH. apply orb_true_r.
Qed.

(** The first occurrence of a text that begins with a fence, after clean
    text. *)
Lemma find_after_clean (needle pre rest : string) :
  PyStr.startswith fence needle = true ->
  clean pre = true ->
  PyStr.startswith needle rest = true ->
  PyStr.find needle (pre ++ rest) = Some (String.length pre).
Proof.
  intros Hneedle Hpre Hrest.
  assert (Hno : forall s, PyStr.startswith fence s = false ->
                          PyStr.startswith needle s = false).
  { intros s Hs. destruct (PyStr.startswith needle s) eqn:E; [|reflexivity].
    rewrite (startswith_trans _ _ _ Hneedle E) in Hs. discriminate Hs. }
  induction pre as [|c pre IH].
  - cbn [append String.length]. destruct rest; cbn [PyStr.find]; now rewrite Hrest.
  - change (String c pre ++ rest) with (String c (pre ++ rest)).
    cbn [PyStr.find String.length].
    change (String c (pre ++ rest)) with (String c pre ++ rest).
    rewrite (Hno _ (clean_no_fence_start c pre rest Hpre)).
    now rewrite (IH (clean_tail _ _ Hpre)).
Qed.

Lemma rfind_app (needle x y : string) (i : nat) :
  PyStr.rfind needle y = Some i ->
  PyStr.rfind needle (x ++ y) = Some (String.length x + i).
Proof.
  intros H. induction x as [|c x IH]; [exact H|].
  cbn [append PyStr.rfind String.length]. now rewrite IH.
Qed.

Lemma rfind_fence_free (s : string) :
  fence_free s = true -> PyStr.rfind fence s = None.
Proof.
  induction s as [|c s IH]; intros H; [reflexivity|].
  cbn [PyStr.rfind]. rewrite (IH (fence_free_tail _ _ H)).
  now rewrite (fence_free_head _ H).
Qed.

Lemma rfind_cons_None (needle : string) (c : ascii) (s : string) :
  PyStr.rfind needle s = None ->
  PyStr.rfind needle (String c s)
  = if PyStr.startswith needle (String c s) then Some 0 else None.
Proof. intros H. cbn [PyStr.rfind]. now rewrite H. Qed.

(** The last fence of a text that ends with a fence and a tail that
    holds and completes no further fence. *)
Lemma rfind_last_fence (x post : string) :
  fence_free (String "`" (String "`" post)) = true ->
  PyStr.rfind fence (x ++ fence ++ post) = Some (String.length x).
Proof.
  intros H. rewrite (rfind_app fence x (fence ++ post) 0).
  - now rewrite Nat.add_0_r.
  - change (fence ++ post) with (String "`" (String "`" (String "`" post))).
    rewrite rfind_cons_None by (now apply rfind_fence_free).
    reflexivity.
Qed.

Lemma substring_skip (x y : string) (n : nat) :
  substring (String.length x) n (x ++ y) = substring 0 n y.
Proof. induction x as [|c x IH]; [reflexivity|]. exact IH. Qed.

Lemma substring_take (b c : string) :
  substring 0 (String.length b) (b ++ c) = b.
Proof.
  induction b as [|x b IH]; [now destruct c|].
  cbn [append String.length substring]. now rewrite IH.
Qed.

Lemma slice_middle (x b c : string) :
  PyStr.slice (String.length x) (String.length x + String.length b)
              (x ++ b ++ c) = b.
Proof.
  unfold PyStr.slice.
  replace (String.length x + String.length b - String.length x)
    with (String.length b) by lia.
  rewrite substring_skip. apply substring_take.
Qed.

(** What [_generate_file_group] decodes: when the reply, without the
    white space around it, holds clean text, a fence tagged [json], a
    body, a fence and a tail without a further fence, it is the body
    without the white space around it, whatever the body holds; the same
    for an untagged fence when the reply holds no fence tagged [json];
    and a reply without any fence is decoded as it is. *)
Theorem unwrap_json_fenced (reply pre body post : string) :
  clean pre = true ->
  fence_free (String "`" (String "`" post)) = true ->
  (PyStr.strip reply = pre ++ "```json" ++ body ++ fence ++ post ->
   unwrap_json reply = PyStr.strip body)
  /\ (PyStr.strip reply = pre ++ fence ++ body ++ fence ++ post ->
      PyStr.contains "```json" (PyStr.strip reply) = false ->
      unwrap_json reply = PyStr.strip body)
  /\ (fence_free (PyStr.strip reply) = true ->
      unwrap_json reply = PyStr.strip reply).
Proof.
  intros Hpre Hpost. split; [|split].
  - intros E. unfold unwrap_json. rewrite E.
    rewrite (contains_app_r "```json" pre _ (startswith_app _ _)).
    rewrite (find_after_clean "```json" pre _ eq_refl Hpre (startswith_app _ _)).
    replace (pre ++ "```json" ++ body ++ fence ++ post)
      with ((pre ++ "```json" ++ body) ++ fence ++ post)
      by (now rewrite !str_app_assoc).
    rewrite (rfind_last_fence _ _ Hpost).
    replace ((pre ++ "```json" ++ body) ++ fence ++ post)
      with ((pre ++ "```json") ++ body ++ fence ++ post)
      by (now rewrite !str_app_assoc).
    replace (String.length pre + 7) with (String.length (pre ++ "```json"))
      by (rewrite str_length_app; reflexivity).
    replace (String.length (pre ++ "```json" ++ body))
      with (String.length (pre ++ "```json") + String.length body)
      by (rewrite !str_length_app; lia).
    now rewrite slice_middle.
  - intros E Hnone. unfold unwrap_json. rewrite Hnone, E.
    rewrite (contains_app_r fence pre _ (startswith_app _ _)).
    rewrite (find_after_clean fence pre _ eq_refl Hpre (startswith_app _ _)).
    replace (pre ++ fence ++ body ++ fence ++ post)
      with ((pre ++ fence ++ body) ++ fence ++ post)
      by (now rewrite !str_app_assoc).
    rewrite (rfind_last_fence _ _ Hpost).
    replace ((pre ++ fence ++ body) ++ fence ++ post)
      with ((pre ++ fence) ++ body ++ fence ++ post)
      by (now rewrite !str_app_assoc).
    replace (String.length pre + 3) with (String.length (pre ++ fence))
      by (rewrite str_length_app; reflexivity).
    replace (String.length (pre ++ fence ++ body))
      with (String.length (pre ++ fence) + String.length body)
      by (rewrite !str_length_app; lia).
    now rewrite slice_middle.
  - intros Hfree. unfold unwrap_json.
    assert (Hf : PyStr.contains "```" (PyStr.strip reply) = false).
    { unfold fence_free, fence in Hfree. now apply negb_true_iff in Hfree. }
    assert (Hj : PyStr.contains "```json" (PyStr.strip reply) = false).
    { clear -Hf. induction (PyStr.strip reply) as [|c s IH]; [reflexivity|].
      cbn [PyStr.contains] in *. apply orb_false_iff in Hf as [H1 H2].
      rewrite (IH H2), orb_false_r.
      destruct (PyStr.startswith "```json" (String c s)) eqn:E; [|reflexivity].
      apply (startswith_app_l "```" "json") in E. congruence. }
    now rewrite Hj, Hf.
Qed.

End FenceStripping.

Section LineFacts.

Import Doc Generator Staged Aux.

Lemma split_not_nil (sep : ascii) (s : string) : PyStr.split sep s <> [].
Proof.
  destruct s as [|c s]; cbn [PyStr.split]; [discriminate|].
  destruct (Ascii.eqb c sep); [discriminate|].
  destruct (PyStr.split sep s); discriminate.
Qed.

Lemma split_app_sep (sep : ascii) (x y : string) :
  PyStr.split sep (x ++ String sep y)
  = (PyStr.split sep x ++ PyStr.split sep y)%list.
Proof.
  induction x as [|c x IH].
  - cbn [append PyStr.split]. now rewrite Ascii.eqb_refl.
  - cbn [append PyStr.split]. rewrite IH.
    destruct (Ascii.eqb c sep); [reflexivity|].
    pose proof (split_not_nil sep x) as Hne.
    destruct (PyStr.split sep x) as [|h t]; [congruence|]. reflexivity.
Qed.

Lemma split_one_line (s : string) :
  one_line s = true -> PyStr.split newline s = [s].
Proof.
  induction s as [|c s IH]; intros H; [reflexivity|].
  cbn [one_line] in H. apply andb_true_iff in H as [Hc Hs].
  apply negb_true_iff in Hc. cbn [PyStr.split]. now rewrite Hc, (IH Hs).
Qed.

Lemma join_split (sep : ascii) (s : string) :
  PyStr.join (String sep EmptyString) (PyStr.split sep s) = s.
Proof.
  induction s as [|c s IH]; [reflexivity|].
  cbn [PyStr.split]. pose proof (split_not_nil sep s) as Hne.
  destruct (Ascii.eqb c sep) eqn:E.
  - apply Ascii.eqb_eq in E. subst c.
    destruct (PyStr.split sep s) as [|h t]; [congruence|].
    change (PyStr.join (String sep "") ("" :: h :: t))
      with ("" ++ String sep "" ++ PyStr.join (String sep "") (h :: t)).
    now rewrite IH.
  - destruct (PyStr.split sep s) as [|h t]; [congruence|].
    destruct t as [|h' t].
    + cbn [PyStr.join] in *. now rewrite IH.
    + change (PyStr.join (String sep "") (String c h :: h' :: t))
        with (String c h ++ String sep ""
                ++ PyStr.join (String sep "") (h' :: t)).
      change (PyStr.join (String sep "") (h :: h' :: t))
        with (h ++ String sep ""
                ++ PyStr.join (String sep "") (h' :: t)) in IH.
      cbn [append] in *. now rewrite IH.
Qed.

Lemma one_line_app (s t : string) :
  one_line s = true -> one_line t = true -> one_line (s ++ t) = true.
Proof.
  intros Hs Ht. induction s as [|c s IH]; [exact Ht|].
  cbn [append one_line] in *. apply andb_true_iff in Hs as [Hc Hs].
  now rewrite Hc, (IH Hs).
Qed.

(** What [_generate_single_file] returns for a reply that, without the
    white space around it, is a fence line, a body and a closing fence
    line: the body, character for character, whatever it holds. With no
    closing fence line only the first line is dropped, and a reply that
    does not begin with a fence is returned without the white space
    around it. *)
Theorem strip_fences_fenced (reply tag body : string) :
  one_line tag = true ->
  (PyStr.strip reply = fence ++ tag ++ nl ++ body ++ nl ++ fence ->
   strip_fences reply = body)
  /\ (PyStr.strip reply = fence ++ tag ++ nl ++ body ->
      (PyStr.strip (last (PyStr.split newline body) EmptyString) =? fence)
      = false ->
      strip_fences reply = body)
  /\ (PyStr.startswith fence (PyStr.strip reply) = false ->
      strip_fences reply = PyStr.strip reply).
Proof.
  intros Htag.
  assert (Hfirst : PyStr.split newline (fence ++ tag) = [fence ++ tag]).
  { apply split_one_line. now apply one_line_app. }
  assert (Hopen : PyStr.startswith "```" (fence ++ tag) = true)
    by exact (startswith_app fence tag).
  split; [|split].
  - intros E. unfold strip_fences. rewrite E.
    replace (fence ++ tag ++ nl ++ body ++ nl ++ fence)
      with ((fence ++ tag) ++ nl ++ body ++ nl ++ fence)
      by (now rewrite str_app_assoc).
    rewrite (startswith_trans fence (fence ++ tag) _
               (startswith_app _ _) (startswith_app _ _)).
    unfold nl. cbn [append].
    rewrite (split_app_sep newline (fence ++ tag)
               (body ++ String newline fence)), Hfirst.
    rewrite (split_app_sep newline body fence).
    change (([(fence ++ tag)%string] ++ PyStr.split newline body
               ++ PyStr.split newline fence)%list)
      with ((fence ++ tag) :: (PyStr.split newline body ++ [fence])%list).
    cbv beta iota. rewrite Hopen.
    rewrite rev_app_distr. cbn [rev app].
    replace (PyStr.strip fence =? fence) with true by reflexivity.
    rewrite rev_involutive. apply join_split.
  - intros E Hlast. unfold strip_fences. rewrite E.
    replace (fence ++ tag ++ nl ++ body)
      with ((fence ++ tag) ++ nl ++ body) by (now rewrite str_app_assoc).
    rewrite (startswith_trans fence (fence ++ tag) _
               (startswith_app _ _) (startswith_app _ _)).
    unfold nl. cbn [append].
    rewrite (split_app_sep newline (fence ++ tag) body), Hfirst.
    change (([(fence ++ tag)%string] ++ PyStr.split newline body)%list)
      with ((fence ++ tag) :: PyStr.split newline body).
    cbv beta iota. rewrite Hopen.
    pose proof (split_not_nil newline body) as Hne.
    pose proof (join_split newline body) as Hjoin.
    destruct (PyStr.split newline body) as [|h t] using rev_ind;
      [congruence|].
    rewrite last_last in Hlast. rewrite rev_app_distr. cbn [rev app].
    change (PyStr.strip h =? "```") with (PyStr.strip h =? fence).
    now rewrite Hlast.
  - intros H. unfold strip_fences. unfold fence in H. now rewrite H.
Qed.

End LineFacts.

Section ReplaceFacts.

Import Doc Generator Staged Aux.

Lemma replace_skip (x old new rest : string) :
  PyStr.replace_from (String.length x) old new (x ++ rest)
  = PyStr.replace_from 0 old new rest.
Proof.
  induction x as [|c x IH]; [reflexivity|].
  cbn [String.length append PyStr.replace_from]. exact IH.
Qed.

Lemma replace_prefix (c : ascii) (old new rest : string) :
  PyStr.replace (String c old) new (String c old ++ rest)
  = new ++ PyStr.replace (String c old) new rest.
Proof.
  unfold PyStr.replace.
  change (String c old ++ rest) with (String c (old ++ rest)).
  cbn [PyStr.replace_from].
  change (String c (old ++ rest)) with (String c old ++ rest).
  rewrite startswith_app.
  replace (String.length (String c old) - 1) with (String.length old)
    by (cbn [String.length]; lia).
  now rewrite replace_skip.
Qed.

Lemma replace_clean_prefix (old new pre rest : string) :
  PyStr.startswith fence old = true ->
  clean pre = true ->
  PyStr.replace old new (pre ++ rest) = pre ++ PyStr.replace old new rest.
Proof.
  intros Hold Hpre. unfold PyStr.replace.
  induction pre as [|c pre IH]; [reflexivity|].
  change (String c pre ++ rest) with (String c (pre ++ rest)).
  cbn [PyStr.replace_from].
  change (String c (pre ++ rest)) with (String c pre ++ rest).
  destruct (PyStr.startswith old (String c pre ++ rest)) eqn:E.
  - pose proof (clean_no_fence_start c pre rest Hpre) as Hno.
    rewrite (startswith_trans _ _ _ Hold E) in Hno. discriminate Hno.
  - cbn [append]. now rewrite (IH (clean_tail _ _ Hpre)).
Qed.

Lemma replace_absent (old new s : string) :
  PyStr.contains old s = false -> PyStr.replace old new s = s.
Proof.
  unfold PyStr.replace. induction s as [|c s IH]; intros H; [reflexivity|].
  cbn [PyStr.contains] in H. apply orb_false_iff in H as [H1 H2].
  cbn [PyStr.replace_from]. now rewrite H1, (IH H2).
Qed.

Lemma lstrip_idem (s : string) : PyStr.lstrip (PyStr.lstrip s) = PyStr.lstrip s.
Proof.
  induction s as [|c s IH]; [reflexivity|].
  cbn [PyStr.lstrip]. destruct (PyStr.isspace c) eqn:E; [exact IH|].
  cbn [PyStr.lstrip]. now rewrite E.
Qed.

Lemma rstrip_idem (s : string) : PyStr.rstrip (PyStr.rstrip s) = PyStr.rstrip s.
Proof.
  induction s as [|c s IH]; [reflexivity|].
  cbn [PyStr.rstrip]. destruct (PyStr.rstrip s) as [|d r] eqn:E.
  - destruct (PyStr.isspace c) eqn:Ec; [reflexivity|].
    cbn [PyStr.rstrip]. now rewrite Ec.
  - cbn [PyStr.rstrip] in *. now rewrite IH.
Qed.

Lemma lstrip_rstrip (s : string) :
  PyStr.lstrip (PyStr.rstrip (PyStr.lstrip s)) = PyStr.rstrip (PyStr.lstrip s).
Proof.
  induction s as [|c s IH]; [reflexivity|].
  cbn [PyStr.lstrip]. destruct (PyStr.isspace c) eqn:E; [exact IH|].
  cbn [PyStr.rstrip].
  destruct (PyStr.rstrip s); [rewrite E|]; cbn [PyStr.lstrip]; now rewrite E.
Qed.

Lemma strip_idem (s : string) : PyStr.strip (PyStr.strip s) = PyStr.strip s.
Proof. unfold PyStr.strip. now rewrite lstrip_rstrip, rstrip_idem. Qed.

(** The text [_generate_manifest] decodes, for a reply whose only
    fences are the two around a clean body. *)
Lemma manifest_text_fenced (reply body : string) :
  clean body = true ->
  PyStr.strip reply = "```json" ++ body ++ fence
  \/ (PyStr.strip reply = fence ++ body ++ fence
      /\ PyStr.contains "```json" (PyStr.strip reply) = false) ->
  manifest_text reply = PyStr.strip body.
Proof.
  intros Hbody H. unfold manifest_text.
  assert (Hend : PyStr.replace fence "" (body ++ fence) = body).
  { rewrite (replace_clean_prefix fence "" body fence eq_refl Hbody).
    change (PyStr.replace fence "" fence) with "". apply str_app_nil_r. }
  destruct H as [E|[E Hnone]].
  - rewrite E.
    rewrite (replace_prefix "`" "``json" "" (body ++ fence)).
    cbn [append].
    rewrite (replace_clean_prefix "```json" "" body fence eq_refl Hbody).
    change (PyStr.replace "```json" "" fence) with fence.
    change (PyStr.replace "```" "" (body ++ fence))
      with (PyStr.replace fence "" (body ++ fence)).
    now rewrite Hend.
  - rewrite (replace_absent _ _ _ Hnone), E.
    change (PyStr.replace "```" "" (fence ++ body ++ fence))
      with (PyStr.replace (String "`" "``") ""
              (String "`" "``" ++ body ++ fence)).
    rewrite replace_prefix. cbn [append].
    change (PyStr.replace "```" "" (body ++ fence))
      with (PyStr.replace fence "" (body ++ fence)).
    now rewrite Hend.
Qed.

Lemma manifest_text_plain (reply : string) :
  fence_free (PyStr.strip reply) = true ->
  manifest_text reply = PyStr.strip reply.
Proof.
  intros Hfree. unfold manifest_text.
  assert (Hf : PyStr.contains "```" (PyStr.strip reply) = false).
  { unfold fence_free, fence in Hfree. now apply negb_true_iff in Hfree. }
  assert (Hj : PyStr.contains "```json" (PyStr.strip reply) = false).
  { clear -Hf. induction (PyStr.strip reply) as [|c s IH]; [reflexivity|].
    cbn [PyStr.contains] in *. apply orb_false_iff in Hf as [H1 H2].
    rewrite (IH H2), orb_false_r.
    destruct (PyStr.startswith "```json" (String c s)) eqn:E; [|reflexivity].
    apply (startswith_app_l "```" "json") in E. congruence. }
  rewrite (replace_absent _ _ _ Hj), (replace_absent _ _ _ Hf).
  apply strip_idem.
Qed.

End ReplaceFacts.

Section ManifestReply.

Import Doc Generator Staged Aux Json.

Variable service : nat -> response.
Variable json_loads : string -> option json.

Lemma generate_manifest_text (st : state) :
  _generate_manifest service json_loads st
  = match json_loads (manifest_text (text (service (calls st)))) with
    | Some manifest =>
        Returned manifest (after_request service ManifestPrompt st)
    | None => Exited 1
    end.
Proof.
  unfold _generate_manifest, _call_claude, bind, manifest_text.
  now destruct (json_loads _).
Qed.

(** [_generate_manifest] on a reply that, without the white space
    around it, is a clean body between a fence, tagged [json] or not,
    and a closing fence, or that holds no fence at all: one request is
    made and charged, and the session gets what the body (or the
    reply), without the white space around it, decodes to; when that
    does not decode, the process exits with status 1. *)
Theorem generate_manifest_fenced (st : state) (reply body : string) :
  PyStr.strip (text (service (calls st))) = reply ->
  (clean body = true
   /\ (reply = "```json" ++ body ++ fence
       \/ (reply = fence ++ body ++ fence
           /\ PyStr.contains "```json" reply = false)))
  \/ (fence_free reply = true /\ body = reply) ->
  _generate_manifest service json_loads st
  = match json_loads (PyStr.strip body) with
    | Some manifest =>
        Returned manifest (after_request service ManifestPrompt st)
    | None => Exited 1
    end.
Proof.
  intros <- H. rewrite generate_manifest_text.
  destruct H as [[Hbody H]|[Hfree ->]].
  - now rewrite (manifest_text_fenced _ body Hbody H).
  - rewrite (manifest_text_plain _ Hfree).
    now rewrite strip_idem.
Qed.

End ManifestReply.

(* ================================================================== *)
(** ** The writer and the sessions of [MultiAgentGenerator] *)
(* ================================================================== *)

Section GeneratorWriter.

Import PyDict Doc Generator Aux.

Variable umask : Z.









End GeneratorWriter.

Section GeneratorSessions.

Import PyDict Doc Generator Aux.

Variable umask : Z.











End GeneratorSessions.

(* ================================================================== *)
(** ** The parser on whole replies *)
(* ================================================================== *)

Section ParserCoverage.

Import PyDict Doc Generator Aux.

Lemma split_fence_free (s : string) :
  fence_free s = true -> split_fence s = None.
Proof.
  induction s as [|c s IH]; intros H; [reflexivity|].
  cbn [split_fence]. rewrite (fence_free_head _ H).
  now rewrite (IH (fence_free_tail _ _ H)).
Qed.

Lemma fence_free_app_r (a b : string) :
  fence_free (a ++ b) = true -> fence_free b = true.
Proof.
  induction a as [|c a IH]; intros H; [exact H|].
  apply IH. exact (fence_free_tail _ _ H).
Qed.

Lemma span_line_app (s : string) :
  s = fst (span_line s) ++ snd (span_line s).
Proof.
  induction s as [|c s IH]; [reflexivity|].
  cbn [span_line]. destruct (Ascii.eqb c newline); [reflexivity|].
  destruct (span_line s) as [line rest]. cbn [fst snd append] in *.
  now rewrite <- IH.
Qed.

Lemma match_groups_free (s : string) :
  fence_free s = true -> match_groups s = None.
Proof.
  intros H. unfold match_groups.
  pose proof (span_line_app s) as E.
  destruct (span_line s) as [line rest]. cbn [fst snd] in E.
  destruct line as [|c line]; [reflexivity|].
  destruct rest as [|n after_newline]; [reflexivity|].
  rewrite E in H. apply fence_free_app_r in H.
  now rewrite (split_fence_free _ (fence_free_tail _ _ H)).
Qed.

Lemma match_spaces_free (s : string) :
  fence_free s = true -> match_spaces s = None.
Proof.
  induction s as [|c s IH]; intros H.
  - reflexivity.
  - cbn [match_spaces]. rewrite (IH (fence_free_tail _ _ H)).
    rewrite (match_groups_free _ H). now destruct (PyStr.isspace c).
Qed.

Lemma fence_free_drop (n : nat) (s : string) :
  fence_free s = true -> fence_free (PyStr.drop n s) = true.
Proof.
  revert s. induction n as [|n IH]; intros s H; [exact H|].
  destruct s as [|c s]; [exact H|].
  cbn [PyStr.drop]. apply IH. exact (fence_free_tail _ _ H).
Qed.

(** No match at a fence that nothing closes. *)
Lemma match_at_open (rest : string) :
  fence_free rest = true -> match_at (fence ++ rest) = None.
Proof.
  intros H. unfold match_at. rewrite startswith_app.
  change (PyStr.drop 3 (fence ++ rest)) with rest.
  rewrite (match_groups_free _ H).
  destruct (PyStr.startswith "filename:" rest); [|reflexivity].
  now rewrite (match_spaces_free _ (fence_free_drop 9 _ H)).
Qed.

Lemma finditer_open (pre rest : string) :
  clean pre = true ->
  fence_free (String "`" (String "`" rest)) = true ->
  finditer (pre ++ fence ++ rest) = [].
Proof.
  intros Hpre H. unfold finditer. rewrite (finditer_skip_clean _ _ Hpre).
  change (fence ++ rest) with (String "`" (String "`" (String "`" rest))).
  cbn [finditer_from].
  change (String "`" (String "`" (String "`" rest))) with (fence ++ rest).
  rewrite match_at_open
    by exact (fence_free_tail _ _ (fence_free_tail _ _ H)).
  exact (finditer_fence_free _ H).
Qed.

Lemma finditer_document (blocks : list (string * string * string))
      (post : string) :
  well_formed blocks = true ->
  finditer (document blocks post)
  = (map (fun b => (block_path b, block_body b)) blocks
       ++ finditer post)%list.
Proof.
  induction blocks as [|[[pre path] body] blocks IH]; intros H;
    [reflexivity|].
  cbn [well_formed forallb fst snd] in H.
  apply andb_true_iff in H as [H Hrest].
  apply andb_true_iff in H as [H Hbody].
  apply andb_true_iff in H as [Hpre Hpath].
  cbn [document]. rewrite (parse_block_first _ _ _ _ Hpre Hpath Hbody).
  cbn [map app]. now rewrite (IH Hrest).
Qed.

Lemma label_key_file (path : string) :
  plain_label path = true -> file_label path = true ->
  label_key path = path.
Proof.
  intros Hp Hf. unfold plain_label in Hp.
  apply andb_true_iff in Hp as [_ Hns].
  unfold file_label in Hf. apply andb_true_iff in Hf as [_ Hf].
  apply negb_true_iff in Hf.
  unfold label_key. rewrite (strip_no_space _ Hns).
  rewrite (replace_absent _ _ _ Hf). exact (strip_no_space _ Hns).
Qed.

Lemma set_fresh {V} (d : dict V) (k : string) (v : V) :
  ~ In k (keys d) -> set d k v = (d ++ [(k, v)])%list.
Proof.
  unfold keys. induction d as [|[k0 v0] d IH]; intros H; [reflexivity|].
  cbn [set app]. destruct (String.eqb_spec k0 k) as [->|Hne].
  - exfalso. apply H. now left.
  - rewrite IH; [reflexivity|]. intros Hin. apply H. now right.
Qed.

Lemma update_fresh {V} (d bindings : dict V) :
  NoDup (keys d ++ keys bindings)%list ->
  update d bindings = (d ++ bindings)%list.
Proof.
  unfold update. revert d.
  induction bindings as [|[k v] bs IH]; intros d H.
  - cbn [fold_left]. now rewrite app_nil_r.
  - cbn [fold_left fst snd].
    assert (Hk : ~ In k (keys d)).
    { intros Hin. cbn [keys map fst] in H.
      apply NoDup_remove_2 in H. apply H. apply in_or_app. now left. }
    rewrite (set_fresh _ _ _ Hk).
    rewrite IH.
    + now rewrite <- app_assoc.
    + unfold keys in *. rewrite map_app. cbn [map fst].
      rewrite <- app_assoc. exact H.
Qed.

Lemma fold_parse_files (blocks : list (string * string * string))
      (files : dict string) :
  forallb (fun b => plain_label (block_path b) && file_label (block_path b))
          blocks = true ->
  fold_left parse_step
            (map (fun b => (block_path b, block_body b)) blocks) files
  = update files
      (map (fun b => (block_path b, PyStr.strip (block_body b))) blocks).
Proof.
  unfold update. revert files.
  induction blocks as [|b blocks IH]; intros files H; [reflexivity|].
  cbn [forallb] in H. apply andb_true_iff in H as [Hb H].
  apply andb_true_iff in Hb as [Hp Hf].
  cbn [map fold_left fst snd]. rewrite parse_step_eq.
  pose proof Hf as Hf'. unfold file_label in Hf'.
  apply andb_true_iff in Hf' as [Htag _]. apply negb_true_iff in Htag.
  rewrite Htag, (label_key_file _ Hp Hf). now apply IH.
Qed.

Lemma last_binding_In {V} (bindings : list (string * V)) (k : string)
      (v : V) :
  last_binding bindings k = Some v -> In (k, v) bindings.
Proof.
  induction bindings as [|[k0 v0] bs IH]; [discriminate|].
  cbn [last_binding]. destruct (last_binding bs k) as [v'|].
  - intros [= ->]. right. now apply IH.
  - destruct (String.eqb_spec k0 k) as [->|]; [|discriminate].
    intros [= ->]. now left.
Qed.

Lemma bindings_of_blocks (blocks : list (string * string * string)) :
  map (fun m => (label_key (fst m), PyStr.strip (snd m)))
      (filter (fun m => negb (is_language_tag (fst m)))
              (map (fun b => (block_path b, block_body b)) blocks))
  = map (fun b => (label_key (block_path b), PyStr.strip (block_body b)))
        (filter (fun b => negb (is_language_tag (block_path b))) blocks).
Proof.
  induction blocks as [|b bs IH]; [reflexivity|].
  cbn [map filter fst snd].
  destruct (is_language_tag (block_path b)); cbn [negb]; [exact IH|].
  cbn [map fst snd]. now rewrite IH.
Qed.

(** A reply of blocks in the requested format, with clean text between
    them and, after the last one, text without a fence or clean text and
    a fence that nothing closes: the parser binds the path of every
    block that is no language identifier to its trimmed body, the last
    block of a path winning, and nothing for the fence that is not
    closed. When the paths are distinct, none is a language identifier
    and none holds [filename:], the result is the blocks themselves, in
    order, with trimmed bodies. *)
Theorem parse_document
        (blocks : list (string * string * string)) (post pre rest : string) :
  well_formed blocks = true ->
  fence_free post = true
  \/ (post = pre ++ fence ++ rest /\ clean pre = true
      /\ fence_free (String "`" (String "`" rest)) = true) ->
  (forall k,
      get (_parse_files_from_response (document blocks post)) k
      = last_binding
          (map (fun b => (label_key (block_path b),
                          PyStr.strip (block_body b)))
               (filter (fun b => negb (is_language_tag (block_path b)))
                       blocks)) k)
  /\ (forallb (fun b => file_label (block_path b)) blocks = true ->
      NoDup (map block_path blocks) ->
      _parse_files_from_response (document blocks post)
      = map (fun b => (block_path b, PyStr.strip (block_body b))) blocks).
Proof.
  intros Hwf Hpost.
  assert (Hnone : finditer post = []).
  { destruct Hpost as [H|(-> & Hpre & H)].
    - exact (finditer_fence_free _ H).
    - now apply finditer_open. }
  unfold _parse_files_from_response.
  rewrite (finditer_document _ _ Hwf), Hnone, app_nil_r. split.
  - intros k. rewrite parse_fold_bindings, bindings_of_blocks. cbn [get].
    now destruct (last_binding _ k).
  - intros Hfile Hnd. rewrite fold_parse_files.
    + rewrite update_fresh; [reflexivity|].
      cbn [keys map app]. unfold keys. rewrite map_map. exact Hnd.
    + clear -Hwf Hfile. induction blocks as [|b bs IH]; [reflexivity|].
      cbn [well_formed forallb] in *.
      apply andb_true_iff in Hwf as [Hb Hwf].
      apply andb_true_iff in Hb as [Hb _].
      apply andb_true_iff in Hb as [_ Hp].
      apply andb_true_iff in Hfile as [Hf Hfile].
      change (plain_label (block_path b) = true) in Hp.
      rewrite Hp, Hf. cbn [andb]. now apply IH.
Qed.

(** Nothing the parser returns has white space around it: every path
    and every content is its own trimmed text, and no path is bound
    twice. *)
Theorem parse_results_trimmed (reply k v : string) :
  get (_parse_files_from_response reply) k = Some v ->
  PyStr.strip k = k /\ PyStr.strip v = v
  /\ NoDup (keys (_parse_files_from_response reply)).
Proof.
  intros H. split; [|split].
  - unfold _parse_files_from_response in H.
    rewrite parse_fold_bindings in H. cbn [get] in H.
    destruct (last_binding _ k) eqn:E; [|discriminate H].
    apply last_binding_In in E. apply in_map_iff in E as (m & Em & _).
    injection Em as <- _. unfold label_key. apply strip_idem.
  - unfold _parse_files_from_response in H.
    rewrite parse_fold_bindings in H. cbn [get] in H.
    destruct (last_binding _ k) eqn:E; [|discriminate H].
    injection H as ->.
    apply last_binding_In in E. apply in_map_iff in E as (m & Em & _).
    injection Em as _ <-. apply strip_idem.
  - apply NoDup_keys_parse. constructor.
Qed.

End ParserCoverage.

(* ================================================================== *)
(** ** The properties above on the example replies and sessions *)
(* ================================================================== *)

Section CoverageExamples.

Import PyDict Json Staged Doc Aux Samples.

(** Batch generation of the twelve paths of [Scenario.twelve]: three
    requests, charged 30 tokens each. *)
Lemma batch_generation_requests_example :
  calls (mkstate 3 90 [] []
           [GroupPrompt ["f01"; "f02"; "f03"; "f04"; "f05"];
            GroupPrompt ["f06"; "f07"; "f08"; "f09"; "f10"];
            GroupPrompt ["f11"; "f12"]])
  = calls state0 + (List.length Scenario.twelve + 4) / 5
  /\ total_tokens (mkstate 3 90 [] []
                     [GroupPrompt ["f01"; "f02"; "f03"; "f04"; "f05"];
                      GroupPrompt ["f06"; "f07"; "f08"; "f09"; "f10"];
                      GroupPrompt ["f11"; "f12"]])
     = (total_tokens state0
        + usage_from (Scenario.replies Scenario.twelve_replies)
                     (calls state0)
                     ((List.length Scenario.twelve + 4) / 5))%Z
  /\ disk (mkstate 3 90 [] []
             [GroupPrompt ["f01"; "f02"; "f03"; "f04"; "f05"];
              GroupPrompt ["f06"; "f07"; "f08"; "f09"; "f10"];
              GroupPrompt ["f11"; "f12"]]) = disk state0
  /\ stdout (mkstate 3 90 [] []
               [GroupPrompt ["f01"; "f02"; "f03"; "f04"; "f05"];
                GroupPrompt ["f06"; "f07"; "f08"; "f09"; "f10"];
                GroupPrompt ["f11"; "f12"]]) = stdout state0.
Proof.
  exact (proj2 (batch_generation_requests
                  (Scenario.replies Scenario.twelve_replies)
                  Json.json_loads Scenario.twelve state0)
               (JObject [("f01", JString "a"); ("f06", JString "c")])
               (mkstate 3 90 [] []
                  [GroupPrompt ["f01"; "f02"; "f03"; "f04"; "f05"];
                   GroupPrompt ["f06"; "f07"; "f08"; "f09"; "f10"];
                   GroupPrompt ["f11"; "f12"]])
               eq_refl).
Defined.


(** The paths the writer does not write: a file and a file below it,
    in either order, and a key that names the destination itself make
    it raise; a key that leaves the destination is not followed. *)
Lemma staged_writer_refusals :
  _write_files 18 [("a", JString "x"); ("a/b", JString "y")] "out" state0
  = Raised
  /\ _write_files 18 [("a/b", JString "x"); ("a", JString "y")] "out" state0
     = Raised
  /\ _write_files 18 [("", JString "x")] "out" state0 = Raised
  /\ _write_files 18 [("./", JString "x")] "out" state0 = Raised
  /\ _write_files 18 [("a.py", JNumber "1")] "out" state0 = Raised
  /\ _write_files 18 [("/etc/motd", JString "x")] "out" state0 = Unmodelled
  /\ _write_files 18 [("../a.py", JString "x")] "out" state0 = Unmodelled.
Proof. repeat split; reflexivity. Qed.



(** The session of [session_a] leaves the artifact [a.py], whose path
    no other key is joined to, under the destination with its
    content. *)
Lemma session_file_of_key_example :
  read_text
    (disk (mkstate 2 60
             [("out/a.py", Disk.mkfile "x" 420);
              ("out/evil.py", Disk.mkfile "y" 420)]
             [Summary 2 1] [ManifestPrompt; GroupPrompt ["a.py"]]))
    "out/a.py" = Some "x".
Proof. reflexivity. Qed.




(** How the two sessions end: that of [session_a] returns, and that of
    [session_clash], whose batch reply binds a file and a file below
    it, raises in the writer. *)
Lemma usable_sessions_end :
  generate_system session_a Json.json_loads 18 "spec" "out" state0
  = Returned [("a.py", JString "x"); ("evil.py", JString "y")]
      (mkstate 2 60
         [("out/a.py", Disk.mkfile "x" 420);
          ("out/evil.py", Disk.mkfile "y" 420)]
         [Summary 2 1] [ManifestPrompt; GroupPrompt ["a.py"]])
  /\ generate_system session_clash Json.json_loads 18 "spec" "out" state0
     = Raised.
Proof. split; reflexivity. Qed.

(** A batch reply with prose around a fence tagged [json] is decoded as
    the object inside. *)
Lemma unwrap_json_fenced_example :
  unwrap_json fenced_reply = PyStr.strip (nl ++ Scenario.reply_other ++ nl).
Proof.
  exact (proj1 (unwrap_json_fenced fenced_reply
                  ("Here is the JSON:" ++ nl)
                  (nl ++ Scenario.reply_other ++ nl)
                  (nl ++ "Done.") eq_refl eq_refl)
               eq_refl).
Defined.

(** A file inside a fence tagged [python] is returned without the two
    fence lines, the empty line inside it kept. *)
Lemma strip_fences_fenced_example :
  strip_fences fenced_file = "print(1)" ++ nl ++ nl ++ "x = 2".
Proof.
  exact (proj1 (strip_fences_fenced fenced_file "python"
                  ("print(1)" ++ nl ++ nl ++ "x = 2") eq_refl)
               eq_refl).
Defined.

(** A manifest inside a fence tagged [json] is decoded as the array
    inside. *)
Lemma generate_manifest_fenced_example :
  _generate_manifest (Scenario.replies [fenced_manifest]) Json.json_loads
                     state0
  = match Json.json_loads (PyStr.strip (nl ++ Scenario.manifest_a ++ nl)) with
    | Some manifest =>
        Returned manifest
                 (after_request (Scenario.replies [fenced_manifest])
                                ManifestPrompt state0)
    | None => Exited 1
    end.
Proof.
  exact (generate_manifest_fenced (Scenario.replies [fenced_manifest])
           Json.json_loads state0 fenced_manifest
           (nl ++ Scenario.manifest_a ++ nl) eq_refl
           (or_introl (conj eq_refl (or_introl eq_refl)))).
Defined.


(** The paths the writer of [MultiAgentGenerator] does not write. *)
Lemma generator_writer_refusals :
  Generator._write_files 18 [("a", "x"); ("a/b", "y")] "out" []
  = Effect.Failed
  /\ Generator._write_files 18 [("a/b", "x"); ("a", "y")] "out" []
     = Effect.Failed
  /\ Generator._write_files 18 [("", "x")] "out" [] = Effect.Failed
  /\ Generator._write_files 18 [("/etc/motd", "x")] "out" []
     = Effect.Outside.
Proof. repeat split; reflexivity. Qed.



(** Two blocks followed by a fence that nothing closes parse to the two
    blocks. *)
Lemma parse_document_example :
  Generator._parse_files_from_response
    (document blocks2 (nl ++ Generator.fence ++ "python" ++ nl ++ "x = "))
  = map (fun b => (block_path b, PyStr.strip (block_body b))) blocks2.
Proof.
  apply (proj2 (parse_document blocks2
                  (nl ++ Generator.fence ++ "python" ++ nl ++ "x = ")
                  nl ("python" ++ nl ++ "x = ") eq_refl
                  (or_intror (conj eq_refl (conj eq_refl eq_refl))))).
  - reflexivity.
  - repeat constructor; cbn; intuition discriminate.
Defined.

(** The second file of [Scenario.two_blocks]: the path and the content
    are trimmed. *)
Lemma parse_results_trimmed_example :
  PyStr.strip "b.py" = "b.py" /\ PyStr.strip "x = 2" = "x = 2"
  /\ NoDup (keys (Generator._parse_files_from_response Scenario.two_blocks)).
Proof.
  exact (parse_results_trimmed Scenario.two_blocks "b.py" "x = 2" eq_refl).
Defined.

End CoverageExamples.
